(** * Love-is-the-key: the Unity Coefficient Algorithm

    A shallow embedding of [love_is_the_key/protocol.py],
    [love_is_the_key/context.py] and [love_is_the_key/models.py], and the
    properties of the scoring-and-contextualisation pipeline.

    Conventions of the embedding:
    - a Python [str] is a [string]: an ASCII character is itself, any other
      character is written by the bytes of its UTF-8 encoding, as in the
      literals of this file; the markers and the indicator words are ASCII, so
      [in] and [str.count] read the same on bytes as on characters;
    - [str.lower] belongs to the Python runtime, not to the repository: it is
      a parameter of the embedding ([Str.Lower]), of which only its action on
      ASCII text is fixed (it folds the letters A-Z); every statement holds
      for any such function, and [Str.ascii_Lower] runs the definitions on
      ASCII text;
    - a Python [dict] keyed by strings is a [gmap string _];
    - a non-negative Python [int] (a count) is an [N];
    - a Python [float] is the rational number the IEEE binary64 value
      denotes, and every float operation rounds to the nearest binary64
      value, ties to even ([b64]);
    - a call that may raise returns a [Result]. *)

From Stdlib Require Import ZArith QArith Qround Qabs Qpower Lqa Lia Ascii String List.
From Stdlib Require Import DecimalString.
From stdpp Require Import gmap strings list fin_maps.

Local Open Scope string_scope.

(** ** Python strings *)

Module Str.

(** [c.lower()] for one ASCII character. *)
Definition lower_ascii (c : ascii) : ascii :=
  let n := N_of_ascii c in
  if ((65 <=? n) && (n <=? 90))%N then ascii_of_N (n + 32) else c.

(** [s.lower()] for an ASCII string. *)
Fixpoint ascii_lower (s : string) : string :=
  match s with
  | EmptyString => EmptyString
  | String c s' => String (lower_ascii c) (ascii_lower s')
  end.

(** [s.isascii()] *)
Fixpoint isascii (s : string) : bool :=
  match s with
  | EmptyString => true
  | String c s' => (N_of_ascii c <? 128)%N && isascii s'
  end.

(** [s.lower()].  The lowercasing of the runtime is Unicode-aware (it can
    turn a non-ASCII character into an ASCII letter and can change the
    length of the text); all that is fixed here is that it is the ASCII fold
    on ASCII text. *)
Class Lower : Type := {
  lower : string -> string;
  lower_isascii : forall s, isascii s = true -> lower s = ascii_lower s
}.

(** The lowercasing of ASCII text, to run the definitions. *)
#[global] Instance ascii_Lower : Lower :=
  {| lower := ascii_lower; lower_isascii := fun _ _ => eq_refl |}.

(** [s.startswith(sub)] *)
Fixpoint startswith (sub s : string) : bool :=
  match sub, s with
  | EmptyString, _ => true
  | String a sub', String b s' => if Ascii.eqb a b then startswith sub' s' else false
  | String _ _, EmptyString => false
  end.

(** [sub in s] *)
Fixpoint contains (sub s : string) : bool :=
  if startswith sub s then true
  else match s with
       | EmptyString => false
       | String _ s' => contains sub s'
       end.

(** The scan behind [s.count(sub)]: occurrences are taken from left to right
    and a match consumes its characters, so [skip] positions after the start
    of a match cannot start another one. *)
Fixpoint count_scan (sub s : string) (skip : nat) : N :=
  match s with
  | EmptyString =>
      match sub, skip with
      | EmptyString, O => 1
      | _, _ => 0
      end
  | String _ s' =>
      match skip with
      | S k => count_scan sub s' k
      | O =>
          if startswith sub s
          then 1 + count_scan sub s' (String.length sub - 1)
          else count_scan sub s' 0
      end
  end%N.

(** [s.count(sub)] *)
Definition count (s sub : string) : N := count_scan sub s 0.

End Str.

(** ** The lexicons ([protocol.py]) *)

Definition SEPARATION_MARKERS : list string :=
  [ "fear"; "lack"; "impossible"; "us versus them"; "judgement";
    "crisis"; "scarcity"; "division"; "conflict"; "enemy";
    "zero-sum"; "my way"; "compete"; "dominate"; "control";
    "threat"; "danger"; "attack"; "defend"; "protect";
    "limited"; "finite"; "not enough"; "mine"; "yours";
    "separate"; "isolated"; "alone"; "abandoned"; "rejected";
    "failure"; "loss"; "defeat"; "victim"; "powerless";
    "hate"; "anger"; "resentment"; "revenge"; "punishment";
    "wrong"; "bad"; "evil"; "sin"; "guilt";
    "shame"; "blame"; "fault"; "mistake"; "error";
    "weak"; "inferior"; "less than"; "unworthy"; "inadequate";
    "impossible"; "can't"; "won't"; "never"; "hopeless";
    "desperate"; "anxious"; "worried"; "stressed"; "overwhelmed";
    "chaos"; "disorder"; "destruction"; "collapse"; "end";
    "death"; "dying"; "terminal"; "fatal"; "doomed";
    "exclusive"; "elite"; "superior"; "better than"; "privilege";
    "hierarchy"; "rank"; "status"; "class"; "caste";
    "border"; "boundary"; "wall"; "barrier"; "fence";
    "restriction"; "limitation"; "constraint"; "prohibition"; "ban";
    "competition"; "rivalry"; "opponent"; "adversary"; "foe" ].

Definition UNITY_MARKERS : list string :=
  [ "love"; "unity"; "co-create"; "abundance"; "possibility";
    "solution"; "harmony"; "peace"; "together"; "collaboration";
    "shared source"; "potential"; "oneness"; "wholeness"; "integration";
    "connection"; "relationship"; "bond"; "link"; "bridge";
    "infinite"; "unlimited"; "boundless"; "endless"; "eternal";
    "collective"; "community"; "all beings"; "everyone"; "humanity";
    "together"; "united"; "joined"; "merged"; "combined";
    "success"; "victory"; "triumph"; "achievement"; "accomplishment";
    "empowerment"; "strength"; "capability"; "capacity"; "ability";
    "compassion"; "kindness"; "care"; "support"; "help";
    "forgiveness"; "acceptance"; "understanding"; "empathy"; "sympathy";
    "right"; "good"; "virtue"; "merit"; "worth";
    "honor"; "respect"; "dignity"; "value"; "appreciation";
    "strong"; "capable"; "worthy"; "deserving"; "adequate";
    "possible"; "can"; "will"; "always"; "hopeful";
    "calm"; "peaceful"; "serene"; "tranquil"; "relaxed";
    "order"; "harmony"; "balance"; "equilibrium"; "stability";
    "life"; "living"; "vital"; "vibrant"; "thriving";
    "inclusive"; "open"; "welcoming"; "accepting"; "embracing";
    "equality"; "fairness"; "justice"; "equity"; "balance";
    "opening"; "gateway"; "portal"; "passage"; "access";
    "freedom"; "liberty"; "autonomy"; "independence"; "sovereignty";
    "cooperation"; "partnership"; "alliance"; "synergy"; "symbiosis";
    "trust"; "faith"; "belief"; "confidence"; "assurance";
    "joy"; "happiness"; "delight"; "pleasure"; "bliss";
    "gratitude"; "thankfulness"; "appreciation"; "acknowledgment"; "recognition";
    "growth"; "development"; "evolution"; "progress"; "advancement";
    "creation"; "generation"; "manifestation"; "emergence"; "birth";
    "light"; "illumination"; "clarity"; "insight"; "wisdom";
    "truth"; "authenticity"; "genuineness"; "sincerity"; "honesty";
    "beauty"; "grace"; "elegance"; "refinement"; "excellence" ].

(** ** Python floats

    A [float] is modelled by the rational number it denotes.  [b64] rounds a
    rational to the nearest binary64 value, ties to even, subnormal range
    included; magnitudes stay far below the overflow threshold here (every
    float of the pipeline lies between 0 and 100). *)

Module Float.

Local Open Scope Q_scope.

(** [2 ^ e] for any integer exponent. *)
Definition pow2 (e : Z) : Q :=
  match e with
  | Z0 => 1
  | Zpos p => inject_Z (2 ^ Zpos p)
  | Zneg p => 1 # (2 ^ p)%positive
  end.

(** Nearest integer, ties to the even one. *)
Definition rne (q : Q) : Z :=
  let f := Qfloor q in
  match Qcompare (q - inject_Z f) (1 # 2) with
  | Lt => f
  | Gt => (f + 1)%Z
  | Eq => if Z.even f then f else (f + 1)%Z
  end.

(** [floor (log2 q)] for [0 < q]. *)
Definition ilog2 (q : Q) : Z :=
  let l := (Z.log2 (Qnum q) - Z.log2 (Zpos (Qden q)))%Z in
  if Qle_bool (pow2 l) q then l else (l - 1)%Z.

(** Rounding of a positive rational: 53 significant bits, exponent at least
    -1074. *)
Definition b64_pos (q : Q) : Q :=
  let e := Z.max (ilog2 q - 52) (-1074) in
  Qred (inject_Z (rne (q / pow2 e)) * pow2 e).

Definition b64 (q : Q) : Q :=
  match Qcompare q 0 with
  | Eq => 0
  | Gt => b64_pos q
  | Lt => - b64_pos (- q)
  end.

(** [a / b] on non-negative ints: the correctly rounded quotient.  Both call
    sites test the divisor before dividing. *)
Definition truediv (a b : N) : Q :=
  b64 (inject_Z (Z.of_N a) / inject_Z (Z.of_N b)).

(** [a * b] on floats. *)
Definition mul (a b : Q) : Q := b64 (a * b).

(** [round(x, ndigits)]: the decimal with [ndigits] fractional digits nearest
    to the value of [x], converted back to a float. *)
Definition round (x : Q) (ndigits : N) : Q :=
  let p := inject_Z (10 ^ Z.of_N ndigits) in
  b64 (inject_Z (rne (x * p)) / p).

(** [a < b] and [a >= b] *)
Definition ltb (a b : Q) : bool := negb (Qle_bool b a).
Definition geb (a b : Q) : bool := Qle_bool b a.

(** [min(a, b)]: the first argument unless the second is smaller. *)
Definition min (a b : Q) : Q := if ltb b a then b else a.

(** The float literals of the program. *)
Definition c0_1 : Q := Eval vm_compute in b64 (1 # 10).
Definition c0_3 : Q := Eval vm_compute in b64 (3 # 10).
Definition c0_5 : Q := Eval vm_compute in b64 (5 # 10).
Definition c0_75 : Q := Eval vm_compute in b64 (75 # 100).

Definition digits (n : Z) : string := NilZero.string_of_uint (N.to_uint (Z.to_N n)).

(** [format(x, ".2f")] *)
Definition format_2f (x : Q) : string :=
  let k := rne (Qabs x * 100) in
  let frac := (k mod 100)%Z in
  (if Qle_bool 0 x then "" else "-") ++
  digits (k / 100) ++ "." ++ (if (frac <? 10)%Z then "0" else "") ++ digits frac.

(** [format(x, ".0%")]: the float product [x * 100] printed without
    fractional digits. *)
Definition format_0pct (x : Q) : string :=
  let y := mul x 100 in
  (if Qle_bool 0 y then "" else "-") ++ digits (rne (Qabs y)) ++ "%".

End Float.

(** ** Exceptions *)

Inductive Exception : Type :=
  | ValidationError
  | AttributeError (name : string).

Inductive Result (A : Type) : Type :=
  | Ok (a : A)
  | Raise (e : Exception).
Arguments Ok {A} a.
Arguments Raise {A} e.

#[export] Instance Result_ret : MRet Result := fun A a => Ok a.
#[export] Instance Result_bind : MBind Result := fun A B k r =>
  match r with
  | Ok a => k a
  | Raise e => Raise e
  end.

(** ** Context detection ([context.py]) *)

Inductive ContentType : Type :=
  | FICTION | HORROR | COMEDY | SATIRE | TECHNICAL | BUSINESS
  | PERSONAL | ACADEMIC | SPIRITUAL | ARTISTIC | JOURNALISTIC | UNKNOWN.

Definition ContentType_members : list ContentType :=
  [FICTION; HORROR; COMEDY; SATIRE; TECHNICAL; BUSINESS;
   PERSONAL; ACADEMIC; SPIRITUAL; ARTISTIC; JOURNALISTIC; UNKNOWN].

(** [member.value] *)
Definition ContentType_value (t : ContentType) : string :=
  match t with
  | FICTION => "fiction"
  | HORROR => "horror"
  | COMEDY => "comedy"
  | SATIRE => "satire"
  | TECHNICAL => "technical"
  | BUSINESS => "business"
  | PERSONAL => "personal"
  | ACADEMIC => "academic"
  | SPIRITUAL => "spiritual"
  | ARTISTIC => "artistic"
  | JOURNALISTIC => "journalistic"
  | UNKNOWN => "unknown"
  end.

Definition ContentType_eqb (a b : ContentType) : bool :=
  String.eqb (ContentType_value a) (ContentType_value b).

(** ** Python values

    The values a caller can put in a user-context mapping: [None], booleans,
    integers, strings and members of [ContentType]. *)
Inductive PyVal : Type :=
  | PyNone
  | PyBool (b : bool)
  | PyInt (z : Z)
  | PyStr (s : string)
  | PyEnum (t : ContentType).

(** [bool(v)] *)
Definition truthy (v : PyVal) : bool :=
  match v with
  | PyNone => false
  | PyBool b => b
  | PyInt z => negb (z =? 0)%Z
  | PyStr s => negb (String.eqb s "")
  | PyEnum _ => true
  end.

(** [d.get(key, default)] *)
Definition dict_get (d : gmap string PyVal) (key : string) (default : PyVal) : PyVal :=
  match d !! key with
  | Some v => v
  | None => default
  end.

(** [ContentType(value)]: the member with that value, and a member itself is
    returned as it is; [None] stands for the [ValueError] of any other
    value. *)
Definition ContentType_of_value (v : PyVal) : option ContentType :=
  match v with
  | PyStr s => List.find (fun t => String.eqb (ContentType_value t) s) ContentType_members
  | PyEnum t => Some t
  | _ => None
  end.

Record ContentContext : Type := mkContentContext {
  content_type : ContentType;
  genre : PyVal;
  intent : PyVal;
  audience : PyVal;
  creative_license : PyVal;
  confidence : Q;
  metadata : gmap string PyVal
}.

Module ContextDetector.

Definition FICTION_INDICATORS : list string :=
  [ "chapter"; "protagonist"; "character"; "plot"; "story"; "novel";
    "narrative"; "scene"; "dialogue"; "narrator"; "fiction" ].

Definition HORROR_INDICATORS : list string :=
  [ "horror"; "terror"; "fear"; "scream"; "blood"; "death"; "monster";
    "nightmare"; "haunted"; "ghost"; "zombie"; "vampire"; "demon" ].

Definition COMEDY_INDICATORS : list string :=
  [ "comedy"; "humor"; "joke"; "funny"; "satire"; "parody"; "irony";
    "sarcasm"; "wit"; "amusing"; "hilarious"; "laugh" ].

Definition TECHNICAL_INDICATORS : list string :=
  [ "function"; "class"; "method"; "algorithm"; "implementation";
    "documentation"; "api"; "code"; "syntax"; "compile"; "debug" ].

Definition ACADEMIC_INDICATORS : list string :=
  [ "abstract"; "methodology"; "hypothesis"; "research"; "study";
    "analysis"; "conclusion"; "bibliography"; "citation"; "peer-reviewed" ].

Definition ARTISTIC_INDICATORS : list string :=
  [ "artistic"; "creative"; "expression"; "art"; "poetry"; "prose";
    "metaphor"; "symbolism"; "imagery"; "aesthetic" ].

(** [sum(1 for indicator in indicators if indicator in text) / len(indicators)] *)
Definition _calculate_indicator_score (text : string) (indicators : list string) : Q :=
  match indicators with
  | [] => 0%Q
  | _ =>
      let matches := List.length (List.filter (fun indicator => Str.contains indicator text) indicators) in
      Float.truediv (N.of_nat matches) (N.of_nat (List.length indicators))
  end.

(** The [scores] dict, in insertion order. *)
Definition scores (text : string) : list (ContentType * Q) :=
  [ (FICTION, _calculate_indicator_score text FICTION_INDICATORS);
    (HORROR, _calculate_indicator_score text HORROR_INDICATORS);
    (COMEDY, _calculate_indicator_score text COMEDY_INDICATORS);
    (TECHNICAL, _calculate_indicator_score text TECHNICAL_INDICATORS);
    (ACADEMIC, _calculate_indicator_score text ACADEMIC_INDICATORS);
    (ARTISTIC, _calculate_indicator_score text ARTISTIC_INDICATORS) ].

(** The scan of [max]: a later item replaces the current best only when its
    key is strictly greater, so the first maximal item wins. *)
Definition max_from (best : ContentType * Q) (items : list (ContentType * Q)) : ContentType * Q :=
  List.fold_left (fun b it => if Float.ltb (snd b) (snd it) then it else b) items best.

(** [max(scores.values())]; the caller tests [not scores] first. *)
Definition max_value (scores : list (ContentType * Q)) : Q :=
  match List.map snd scores with
  | [] => 0%Q
  | first :: rest => List.fold_left (fun b x => if Float.ltb b x then x else b) rest first
  end.

(** [max(scores, key=scores.get)] *)
Definition max_key (scores : list (ContentType * Q)) : ContentType :=
  match scores with
  | [] => UNKNOWN
  | first :: rest => fst (max_from first rest)
  end.

(** [scores[key]] for a key of the dict. *)
Definition scores_get (scores : list (ContentType * Q)) (key : ContentType) : Q :=
  match List.find (fun it => ContentType_eqb (fst it) key) scores with
  | Some it => snd it
  | None => 0%Q
  end.

Definition _detect_content_type (text : string) : ContentType * Q :=
  let scores := scores text in
  if match scores with [] => true | _ => false end
     || Float.ltb (max_value scores) Float.c0_1
  then (UNKNOWN, 0%Q)
  else
    let best_type := max_key scores in
    let confidence := Float.min (scores_get scores best_type) 1%Q in
    (best_type, confidence).

Definition is_fiction_or_artistic (t : ContentType) : bool :=
  match t with
  | FICTION | ARTISTIC => true
  | _ => false
  end.

Definition _detect_genre (text : string) (t : ContentType) : PyVal :=
  if is_fiction_or_artistic t then
    if List.existsb (fun indicator => Str.contains indicator text) HORROR_INDICATORS
    then PyStr "horror"
    else if List.existsb (fun indicator => Str.contains indicator text) COMEDY_INDICATORS
    then PyStr "comedy"
    else PyNone
  else PyNone.

Definition _detect_intent (text : string) (t : ContentType) : PyVal :=
  match t with
  | FICTION | ARTISTIC | HORROR => PyStr "artistic"
  | TECHNICAL => PyStr "educational"
  | ACADEMIC => PyStr "research"
  | _ => PyNone
  end.

Definition is_creative_type (t : ContentType) : bool :=
  match t with
  | FICTION | HORROR | COMEDY | SATIRE | ARTISTIC => true
  | _ => false
  end.

(** [genre in ["horror", "comedy", "satire"]] *)
Definition is_creative_genre (g : PyVal) : bool :=
  match g with
  | PyStr s => String.eqb s "horror" || String.eqb s "comedy" || String.eqb s "satire"
  | _ => false
  end.

Definition _has_creative_license (t : ContentType) (g : PyVal) : bool :=
  is_creative_type t || is_creative_genre g.

Definition _build_from_user_context (user_context : gmap string PyVal) : ContentContext :=
  let content_type_str := dict_get user_context "type" (PyStr "unknown") in
  let content_type :=
    match ContentType_of_value content_type_str with
    | Some t => t
    | None => UNKNOWN
    end in
  {| content_type := content_type;
     genre := dict_get user_context "genre" PyNone;
     intent := dict_get user_context "intent" PyNone;
     audience := PyNone;
     creative_license := dict_get user_context "creative_license" (PyBool false);
     confidence := 1%Q;
     metadata := user_context |}.

(** The heuristic branch of [detect], on the folded text. *)
Definition detect_heuristic (text_lower : string) : ContentContext :=
  let '(content_type, confidence) := _detect_content_type text_lower in
  let genre := _detect_genre text_lower content_type in
  let intent := _detect_intent text_lower content_type in
  let creative_license := _has_creative_license content_type genre in
  {| content_type := content_type;
     genre := genre;
     intent := intent;
     audience := PyNone;
     creative_license := PyBool creative_license;
     confidence := confidence;
     metadata := ∅ |}.

(** [if user_context:] tests the truth value of the argument: [None] and the
    empty dict are both false. *)
Definition detect {L : Str.Lower} (text : string) (user_context : option (gmap string PyVal))
    : ContentContext :=
  let text_lower := Str.lower text in
  match user_context with
  | None => detect_heuristic text_lower
  | Some d =>
      if bool_decide (d = ∅) then detect_heuristic text_lower
      else _build_from_user_context d
  end.

End ContextDetector.

(** The line break of the message templates. *)
Definition nl : string := String (ascii_of_nat 10) EmptyString.

(** The dict returned by [contextualize_coefficient]. *)
Record ContextData : Type := mkContextData {
  raw_coefficient : Q;
  context : ContentContext;
  interpretation : string;
  notes : list string;
  reframing_appropriate : bool;
  creative_license_respected : PyVal
}.

Module ConsciousnessContextualizer.

Definition _interpret_coefficient (coefficient : Q) (context : ContentContext) : string :=
  if truthy (creative_license context) then
    match content_type context with
    | HORROR =>
        "Unity Coefficient: " ++ Float.format_2f coefficient ++ " (Genre: Horror Fiction)" ++ nl ++
        "Low coefficient expected for this genre. Creative license respected."
    | COMEDY =>
        "Unity Coefficient: " ++ Float.format_2f coefficient ++ " (Genre: Comedy/Satire)" ++ nl ++
        "Coefficient reflects comedic/satirical intent. Creative expression honored."
    | _ =>
        "Unity Coefficient: " ++ Float.format_2f coefficient ++ " (Artistic Expression)" ++ nl ++
        "Creative license recognized. No restrictions applied."
    end
  else if Float.geb coefficient Float.c0_75 then
    "Unity Coefficient: " ++ Float.format_2f coefficient ++ " - High unity alignment"
  else if Float.geb coefficient Float.c0_5 then
    "Unity Coefficient: " ++ Float.format_2f coefficient ++ " - Balanced alignment"
  else
    "Unity Coefficient: " ++ Float.format_2f coefficient ++ " - Separation-leaning patterns detected".

Definition _generate_contextual_notes (coefficient : Q) (context : ContentContext) : list string :=
  let notes :=
    if truthy (creative_license context) then
      List.app
        [ "✓ Creative license respected";
          "✓ No restrictions applied";
          "✓ Artistic expression honored" ]
        match content_type context with
        | HORROR => ["Note: Horror genre naturally employs separation themes for emotional impact"]
        | COMEDY => ["Note: Comedy/satire often uses contrast and conflict for humorous effect"]
        | _ => []
        end
    else if Float.ltb coefficient Float.c0_5 then
      [ "Observation: Content shows separation-based patterns";
        "Suggestion: Alternative framing available if desired" ]
    else if Float.geb coefficient Float.c0_75 then
      [ "Observation: Strong unity consciousness present";
        "Recognition: Content promotes collaborative awareness" ]
    else [] in
  if Float.ltb (confidence context) Float.c0_5 then
    List.app notes
      [ "Note: Context detection confidence is " ++ Float.format_0pct (confidence context);
        "Tip: You can provide explicit context for more accurate analysis" ]
  else notes.

Definition is_business_or_technical (t : ContentType) : bool :=
  match t with
  | BUSINESS | TECHNICAL => true
  | _ => false
  end.

Definition _should_suggest_reframing (coefficient : Q) (context : ContentContext) : bool :=
  if truthy (creative_license context) then false
  else if is_business_or_technical (content_type context) then Float.ltb coefficient Float.c0_5
  else Float.ltb coefficient Float.c0_3.

Definition contextualize_coefficient {L : Str.Lower}
    (coefficient : Q) (text : string) (user_context : option (gmap string PyVal)) : ContextData :=
  let context := ContextDetector.detect text user_context in
  {| raw_coefficient := coefficient;
     context := context;
     interpretation := _interpret_coefficient coefficient context;
     notes := _generate_contextual_notes coefficient context;
     reframing_appropriate := _should_suggest_reframing coefficient context;
     creative_license_respected := creative_license context |}.

End ConsciousnessContextualizer.

Definition detect_context {L : Str.Lower} := ContextDetector.detect (L := L).
Definition contextualize_analysis {L : Str.Lower} :=
  ConsciousnessContextualizer.contextualize_coefficient (L := L).

(** ** The report model ([models.py]) *)

(** The fields that [class UnityReport(BaseModel)] declares. *)
Record UnityReport : Type := mkUnityReport {
  coefficient : Q;
  analysis_method : string;
  separation_hits : gmap string N;
  unity_hits : gmap string N;
  conscious_reframing : string
}.

(** What an attribute of a report can hold. *)
Inductive Attr : Type :=
  | AFloat (x : Q)
  | AStr (s : string)
  | AHits (hits : gmap string N)
  | AContext (data : ContextData).

(** [UnityReport(coefficient=..., ..., **extra)].  The field [coefficient] is
    declared with [ge=0.0, le=1.0]; a value outside raises the validation
    error.  [model_config] sets only [json_schema_extra], so the model keeps
    the default treatment of keyword arguments that name no declared field:
    they are ignored. *)
Definition UnityReport_init
    (coefficient : Q) (analysis_method : string)
    (separation_hits unity_hits : gmap string N) (conscious_reframing : string)
    (extra : list (string * Attr)) : Result UnityReport :=
  if Float.geb coefficient 0 && Float.geb 1 coefficient then
    Ok {| coefficient := coefficient;
          analysis_method := analysis_method;
          separation_hits := separation_hits;
          unity_hits := unity_hits;
          conscious_reframing := conscious_reframing |}
  else Raise ValidationError.

(** [getattr(report, name)]: the declared fields, and [AttributeError] for any
    other name. *)
Definition UnityReport_getattr (report : UnityReport) (name : string) : Result Attr :=
  if String.eqb name "coefficient" then Ok (AFloat (coefficient report))
  else if String.eqb name "analysis_method" then Ok (AStr (analysis_method report))
  else if String.eqb name "separation_hits" then Ok (AHits (separation_hits report))
  else if String.eqb name "unity_hits" then Ok (AHits (unity_hits report))
  else if String.eqb name "conscious_reframing" then Ok (AStr (conscious_reframing report))
  else Raise (AttributeError name).

(** ** The protocol ([protocol.py]) *)

Definition HIGH_UNITY_MESSAGE : string :=
  "High Unity Alignment. The intent is rooted in love and abundance.".
Definition BALANCED_MESSAGE : string :=
  "Balanced Alignment. The potential for conscious co-creation is strong, requiring only slight reframing.".
Definition SEPARATION_MESSAGE : string :=
  "The content leans towards separation logic. Re-evaluate the core premise from the perspective of our shared source and inherent abundance.".

(** Step 1 of [v1_keyword_calculate], for one lexicon: the body of the loop
    and the loop that fills a hit dict. *)
Definition record_marker (text_lower : string) (hits : gmap string N) (marker : string)
    : gmap string N :=
  let count := Str.count text_lower marker in
  if (0 <? count)%N then <[marker := count]> hits else hits.

Definition count_markers (markers : list string) (text_lower : string) : gmap string N :=
  List.fold_left (record_marker text_lower) markers ∅.

(** [sum(hits.values())] *)
Definition sum_values (hits : gmap string N) : N :=
  map_fold (fun _ count acc => (acc + count)%N) 0%N hits.

(** The coefficient before it is rounded. *)
Definition raw_unity_coefficient (separation_hits unity_hits : gmap string N) : Q :=
  let separation_count := sum_values separation_hits in
  let unity_count := sum_values unity_hits in
  let total_markers := (separation_count + unity_count)%N in
  if (total_markers =? 0)%N then Float.c0_5
  else Float.truediv unity_count total_markers.

(** Step 3: the message of a coefficient. *)
Definition reframing_of (coefficient : Q) : string :=
  if Float.geb coefficient Float.c0_75 then HIGH_UNITY_MESSAGE
  else if Float.geb coefficient Float.c0_5 then BALANCED_MESSAGE
  else SEPARATION_MESSAGE.

(** Steps 2 and 3 of [v1_keyword_calculate] and its [return]. *)
Definition report_of_hits (separation_hits unity_hits : gmap string N) : Result UnityReport :=
  let coefficient := raw_unity_coefficient separation_hits unity_hits in
  let reframing := reframing_of coefficient in
  UnityReport_init (Float.round coefficient 4) "V1: Keyword Lexicon Density"
    separation_hits unity_hits reframing [].

Definition v1_keyword_calculate {L : Str.Lower} (text : string) : Result UnityReport :=
  let text_lower := Str.lower text in
  let separation_hits := count_markers SEPARATION_MARKERS text_lower in
  let unity_hits := count_markers UNITY_MARKERS text_lower in
  report_of_hits separation_hits unity_hits.

Definition _generate_context_aware_reframing (base_reframing : string) (context_data : ContextData) : string :=
  let context := context context_data in
  if truthy (creative_license context) then
    interpretation context_data ++ nl ++ nl ++
    "Creative Expression Recognized:" ++ nl ++
    "Your artistic vision is respected. No reframing suggested." ++ nl ++
    "The consciousness patterns detected are appropriate for " ++
    ContentType_value (content_type context) ++ " content."
  else if reframing_appropriate context_data then
    interpretation context_data ++ nl ++ nl ++
    "Observation: " ++ base_reframing ++ nl ++ nl ++
    "Note: This is informational only. You have complete sovereignty " ++
    "over your expression. Alternative framings are available if desired."
  else
    interpretation context_data ++ nl ++ nl ++ base_reframing.

Definition get_unity_report {L : Str.Lower}
    (text : string) (user_context : option (gmap string PyVal)) (include_context : bool)
    : Result UnityReport :=
  base_report ← v1_keyword_calculate text;
  if negb include_context then Ok base_report
  else
    let context_data := contextualize_analysis (coefficient base_report) text user_context in
    UnityReport_init
      (coefficient base_report)
      (analysis_method base_report)
      (separation_hits base_report)
      (unity_hits base_report)
      (_generate_context_aware_reframing (conscious_reframing base_report) context_data)
      [("context_info", AContext context_data)].

(** ** Closed forms used by the statements *)

(** The hit dicts, the reported coefficient and the base message of a text. *)
Definition separation_hits_of {L : Str.Lower} (text : string) : gmap string N :=
  count_markers SEPARATION_MARKERS (Str.lower text).
Definition unity_hits_of {L : Str.Lower} (text : string) : gmap string N :=
  count_markers UNITY_MARKERS (Str.lower text).
Definition base_coefficient {L : Str.Lower} (text : string) : Q :=
  Float.round (raw_unity_coefficient (separation_hits_of text) (unity_hits_of text)) 4.
Definition base_reframing {L : Str.Lower} (text : string) : string :=
  reframing_of (raw_unity_coefficient (separation_hits_of text) (unity_hits_of text)).

(** The report of the V1 adapter. *)
Definition base_report_of {L : Str.Lower} (text : string) : UnityReport :=
  {| coefficient := base_coefficient text;
     analysis_method := "V1: Keyword Lexicon Density";
     separation_hits := separation_hits_of text;
     unity_hits := unity_hits_of text;
     conscious_reframing := base_reframing text |}.

(** The report of the entry point when context analysis runs. *)
Definition contextual_report_of {L : Str.Lower}
    (text : string) (user_context : option (gmap string PyVal)) : UnityReport :=
  {| coefficient := base_coefficient text;
     analysis_method := "V1: Keyword Lexicon Density";
     separation_hits := separation_hits_of text;
     unity_hits := unity_hits_of text;
     conscious_reframing :=
       _generate_context_aware_reframing (base_reframing text)
         (contextualize_analysis (base_coefficient text) text user_context) |}.

(** [s * n] *)
Fixpoint repeat_str (s : string) (n : nat) : string :=
  match n with
  | O => EmptyString
  | S n' => s ++ repeat_str s n'
  end.

(** [s[n:]] *)
Fixpoint drop (n : nat) (s : string) : string :=
  match n, s with
  | O, _ => s
  | S n', String _ s' => drop n' s'
  | S _, EmptyString => EmptyString
  end.

(** The six categories that heuristic detection scores, with the indicator
    list of each. *)
Definition detection_categories : list ContentType :=
  [FICTION; HORROR; COMEDY; TECHNICAL; ACADEMIC; ARTISTIC].

Definition indicators_of (t : ContentType) : list string :=
  match t with
  | FICTION => ContextDetector.FICTION_INDICATORS
  | HORROR => ContextDetector.HORROR_INDICATORS
  | COMEDY => ContextDetector.COMEDY_INDICATORS
  | TECHNICAL => ContextDetector.TECHNICAL_INDICATORS
  | ACADEMIC => ContextDetector.ACADEMIC_INDICATORS
  | ARTISTIC => ContextDetector.ARTISTIC_INDICATORS
  | _ => []
  end.

(** The set of the indicator words of a category that occur in a text, and
    the match density: their number over the size of the indicator list. *)
Definition present_indicators (t : ContentType) (text : string) : gset string :=
  list_to_set (List.filter (fun indicator => Str.contains indicator text) (indicators_of t)).

Definition match_density (t : ContentType) (text : string) : Q :=
  Float.truediv (N.of_nat (size (present_indicators t text)))
                (N.of_nat (List.length (indicators_of t))).

(** The genre flavour of the creative-license interpretation: the label in
    parentheses and the remark of the second line. *)
Definition genre_label (t : ContentType) : string :=
  match t with
  | HORROR => "Genre: Horror Fiction"
  | COMEDY => "Genre: Comedy/Satire"
  | _ => "Artistic Expression"
  end.

Definition genre_remark (t : ContentType) : string :=
  match t with
  | HORROR => "Low coefficient expected for this genre. Creative license respected."
  | COMEDY => "Coefficient reflects comedic/satirical intent. Creative expression honored."
  | _ => "Creative license recognized. No restrictions applied."
  end.

Definition NO_REFRAMING_SENTENCE : string :=
  "Your artistic vision is respected. No reframing suggested.".

(** ** Quantities used to state further properties of the engine, the
    detector and the messages *)

(** [sum(text_lower.count(m) for m in markers)] *)
Definition sum_counts (markers : list string) (text_lower : string) : N :=
  List.fold_right (fun marker acc => (Str.count text_lower marker + acc)%N) 0%N markers.

(** The three interpretation lines of non-creative content. *)
Definition high_line (c : Q) : string :=
  "Unity Coefficient: " ++ Float.format_2f c ++ " - High unity alignment".

Definition balanced_line (c : Q) : string :=
  "Unity Coefficient: " ++ Float.format_2f c ++ " - Balanced alignment".

Definition separation_line (c : Q) : string :=
  "Unity Coefficient: " ++ Float.format_2f c ++ " - Separation-leaning patterns detected".

(** The exact quotient of the totals (0.5 when there is no hit). *)
Definition exact_quotient (sep_hits uni_hits : gmap string N) : Q :=
  let unity_count := sum_values uni_hits in
  let total := (sum_values sep_hits + unity_count)%N in
  if (total =? 0)%N then (1 # 2)%Q
  else (inject_Z (Z.of_N unity_count) / inject_Z (Z.of_N total))%Q.

(** The tip that closes the notes of a low-confidence detection. *)
Definition EXPLICIT_CONTEXT_TIP : string :=
  "Tip: You can provide explicit context for more accurate analysis".

(** The sentence that closes the reframing suggestion. *)
Definition SOVEREIGNTY_SENTENCE : string :=
  "You have complete sovereignty over your expression.".

(** The text of [format(x, ".2f")] for the hundredths [k] of a non-negative
    number. *)
Definition hundredths_text (k : Z) : string :=
  Float.digits (k / 100) ++ "." ++ (if (k mod 100 <? 10)%Z then "0" else "") ++
  Float.digits (k mod 100).

(** * Properties *)

(** ** Floats stay in the unit interval *)

Module FloatFacts.
Import Float.
Local Open Scope Q_scope.

Lemma rne_floor (q : Q) : rne q = Qfloor q \/ rne q = (Qfloor q + 1)%Z.
Proof.
  unfold rne. destruct (Qcompare _ _); auto. destruct (Z.even _); auto.
Qed.

Lemma rne_ge_Z (q : Q) (n : Z) : inject_Z n <= q -> (n <= rne q)%Z.
Proof.
  intros H. apply Qfloor_resp_le in H. rewrite Qfloor_Z in H.
  destruct (rne_floor q) as [-> | ->]; lia.
Qed.

Lemma rne_le_Z (q : Q) (n : Z) : q <= inject_Z n -> (rne q <= n)%Z.
Proof.
  intros H. pose proof (Qfloor_resp_le _ _ H) as Hf. rewrite Qfloor_Z in Hf.
  destruct (Z.eq_dec (Qfloor q) n) as [E | E].
  - unfold rne. pose proof (Qfloor_le q) as Hq. rewrite E in *.
    assert (Hlt : q - inject_Z n < 1 # 2) by lra.
    rewrite Qlt_alt in Hlt. rewrite Hlt. lia.
  - destruct (rne_floor q) as [-> | ->]; lia.
Qed.

Lemma pow2_pos (e : Z) : 0 < pow2 e.
Proof.
  destruct e as [| p | p]; simpl; [reflexivity | | reflexivity].
  unfold Qlt; simpl. lia.
Qed.

Lemma scale_unit (q d : Q) : 0 <= q <= 1 -> 0 < d -> 0 <= q * d <= d.
Proof. intros [H0 H1] Hd. split; nra. Qed.

Lemma ilog2_le_0 (q : Q) : 0 < q -> q <= 1 -> (ilog2 q <= 0)%Z.
Proof.
  intros Hpos Hle. unfold ilog2.
  assert (Hl : (Z.log2 (Qnum q) <= Z.log2 (Z.pos (Qden q)))%Z).
  { apply Z.log2_le_mono. unfold Qle in Hle; simpl in Hle. lia. }
  destruct (Qle_bool _ _); lia.
Qed.

Lemma b64_pos_unit (q : Q) : 0 < q -> q <= 1 -> 0 <= b64_pos q <= 1.
Proof.
  intros Hpos Hle. unfold b64_pos.
  pose proof (ilog2_le_0 q Hpos Hle) as Hl.
  set (e := Z.max (ilog2 q - 52) (-1074)).
  assert (He : (e < 0)%Z) by (unfold e; lia).
  rewrite Qred_correct.
  destruct e as [| p | p]; try lia. simpl pow2.
  set (d := (2 ^ p)%positive).
  assert (Hscale : q / (1 # d) == q * inject_Z (Z.pos d)).
  { unfold Qdiv, Qinv; simpl. reflexivity. }
  assert (Hd : 0 < inject_Z (Z.pos d)) by (unfold Qlt; simpl; lia).
  destruct (scale_unit q (inject_Z (Z.pos d))) as [Hq0 Hq1]; [lra | exact Hd |].
  assert (Hlo : (0 <= rne (q / (1 # d)))%Z).
  { apply rne_ge_Z. rewrite Hscale. exact Hq0. }
  assert (Hhi : (rne (q / (1 # d)) <= Z.pos d)%Z).
  { apply rne_le_Z. rewrite Hscale. exact Hq1. }
  unfold Qle, Qmult; simpl. lia.
Qed.

(** A rational of the unit interval rounds to a float of the unit interval. *)
Lemma b64_unit (q : Q) : 0 <= q <= 1 -> 0 <= b64 q <= 1.
Proof.
  intros [H0 H1]. unfold b64.
  destruct (Qcompare q 0) eqn:E.
  - lra.
  - rewrite <- Qlt_alt in E. lra.
  - rewrite <- Qgt_alt in E. apply b64_pos_unit; lra.
Qed.

Lemma truediv_unit (a b : N) : (a <= b)%N -> 0 <= truediv a b <= 1.
Proof.
  intros Hab. unfold truediv. apply b64_unit.
  destruct (N.eq_dec b 0%N) as [-> | Hb].
  - assert (a = 0%N) by lia. subst. vm_compute. split; discriminate.
  - assert (Hbp : 0 < inject_Z (Z.of_N b)) by (unfold Qlt; simpl; lia).
    assert (Ha : 0 <= inject_Z (Z.of_N a)) by (unfold Qle; simpl; lia).
    assert (Hle : inject_Z (Z.of_N a) <= inject_Z (Z.of_N b)) by (unfold Qle; simpl; lia).
    split.
    + apply Qle_shift_div_l; lra.
    + apply Qle_shift_div_r; lra.
Qed.

Lemma round_unit (x : Q) (ndigits : N) : 0 <= x <= 1 -> 0 <= round x ndigits <= 1.
Proof.
  intros [H0 H1]. unfold round.
  set (p := (10 ^ Z.of_N ndigits)%Z).
  assert (Hp : (0 < p)%Z) by (apply Z.pow_pos_nonneg; lia).
  assert (Hpq : 0 < inject_Z p) by (unfold Qlt; simpl; lia).
  destruct (scale_unit x (inject_Z p)) as [Hx0 Hx1]; [lra | exact Hpq |].
  assert (Hlo : (0 <= rne (x * inject_Z p))%Z) by (apply rne_ge_Z; exact Hx0).
  assert (Hhi : (rne (x * inject_Z p) <= p)%Z) by (apply rne_le_Z; exact Hx1).
  apply b64_unit. split.
  - apply Qle_shift_div_l; [lra |]. unfold Qle; simpl. lia.
  - apply Qle_shift_div_r; [lra |]. unfold Qle; simpl. lia.
Qed.


(** *** Thresholds at quarters

    Rounding is monotone at the quarters: a rational on one side of [a/4]
    rounds to a float on the same side. *)

Lemma exponent_unit (q : Q) :
  0 < q -> q <= 1 ->
  exists p : positive,
    Z.max (ilog2 q - 52) (-1074) = Z.neg p /\ (52 <= Z.pos p <= 1074)%Z.
Proof.
  intros Hpos Hle. pose proof (ilog2_le_0 q Hpos Hle) as Hl.
  destruct (Z.max (ilog2 q - 52) (-1074)) as [| p | p] eqn:E; try lia.
  exists p. split; [reflexivity | lia].
Qed.

Lemma pow2_quarters (p : positive) :
  (52 <= Z.pos p)%Z -> Z.pos (2 ^ p) = (4 * 2 ^ (Z.pos p - 2))%Z.
Proof.
  intros Hp. rewrite Pos2Z.inj_pow.
  replace (Z.pos p) with (2 + (Z.pos p - 2))%Z at 1 by lia.
  rewrite Z.pow_add_r by lia. reflexivity.
Qed.

Lemma scaled_quarters (q : Q) (a : Z) (p : positive) :
  (52 <= Z.pos p)%Z ->
  q / (1 # 2 ^ p) == q * inject_Z (Z.pos (2 ^ p)) /\
  inject_Z (a * 2 ^ (Z.pos p - 2)) == (a # 4) * inject_Z (Z.pos (2 ^ p)).
Proof.
  intros Hp. split.
  - unfold Qdiv, Qinv; simpl. reflexivity.
  - pose proof (pow2_quarters p Hp) as HD. set (P := (2 ^ p)%positive) in *.
    unfold Qeq, Qmult; simpl. lia.
Qed.

Lemma b64_pos_ge_quarters (q : Q) (a : Z) :
  0 < q -> q <= 1 -> a # 4 <= q -> a # 4 <= b64_pos q.
Proof.
  intros Hpos Hle Ha. unfold b64_pos.
  destruct (exponent_unit q Hpos Hle) as (p & -> & Hp & _).
  rewrite Qred_correct. cbn [pow2].
  destruct (scaled_quarters q a p Hp) as [Hq Hth].
  assert (Hd : 0 < inject_Z (Z.pos (2 ^ p))) by reflexivity.
  assert (Hm : (a * 2 ^ (Z.pos p - 2) <= rne (q / (1 # 2 ^ p)))%Z).
  { apply rne_ge_Z. rewrite Hq, Hth. apply Qmult_le_compat_r; lra. }
  pose proof (pow2_quarters p Hp) as HD. set (P := (2 ^ p)%positive) in *.
  unfold Qle, Qmult; simpl. lia.
Qed.

Lemma b64_pos_le_quarters (q : Q) (a : Z) :
  0 < q -> q <= 1 -> q <= a # 4 -> b64_pos q <= a # 4.
Proof.
  intros Hpos Hle Ha. unfold b64_pos.
  destruct (exponent_unit q Hpos Hle) as (p & -> & Hp & _).
  rewrite Qred_correct. cbn [pow2].
  destruct (scaled_quarters q a p Hp) as [Hq Hth].
  assert (Hd : 0 < inject_Z (Z.pos (2 ^ p))) by reflexivity.
  assert (Hm : (rne (q / (1 # 2 ^ p)) <= a * 2 ^ (Z.pos p - 2))%Z).
  { apply rne_le_Z. rewrite Hq, Hth. apply Qmult_le_compat_r; lra. }
  pose proof (pow2_quarters p Hp) as HD. set (P := (2 ^ p)%positive) in *.
  unfold Qle, Qmult; simpl. lia.
Qed.

(** *** Strictly below a threshold

    Between 1/4 and 1 the exponent is known exactly, so a rational that stays
    half a unit in the last place below a threshold rounds strictly below it. *)

Lemma rne_lt_Z (q : Q) (n : Z) : q < inject_Z n - (1 # 2) -> (rne q < n)%Z.
Proof.
  intros H. pose proof (Qfloor_le q) as Hf.
  assert (Hfn : (Qfloor q < n)%Z).
  { apply Z.lt_nge. intros Hge. rewrite Zle_Qle in Hge. lra. }
  destruct (Z.eq_dec (Qfloor q) (n - 1)%Z) as [E | E].
  - unfold rne. rewrite E in *.
    assert (Hlt : q - inject_Z (n - 1)%Z < 1 # 2).
    { unfold Z.sub. rewrite inject_Z_plus, inject_Z_opp. change (inject_Z 1) with 1. lra. }
    rewrite Qlt_alt in Hlt. rewrite Hlt. lia.
  - destruct (rne_floor q) as [-> | ->]; lia.
Qed.

Lemma ilog2_upper_half (q : Q) : 1 # 2 <= q -> q < 1 -> ilog2 q = (-1)%Z.
Proof.
  intros Hlo Hhi. unfold ilog2.
  destruct q as [n d]. unfold Qle, Qlt in Hlo, Hhi. cbn [Qnum Qden] in *.
  assert (Hn : (0 < n)%Z) by lia.
  assert (H1 : (Z.log2 n <= Z.log2 (Z.pos d))%Z) by (apply Z.log2_le_mono; lia).
  assert (H2 : (Z.log2 (Z.pos d) <= Z.log2 (2 * n))%Z) by (apply Z.log2_le_mono; lia).
  rewrite Z.log2_double in H2 by exact Hn.
  assert (Hl : (Z.log2 n - Z.log2 (Z.pos d) = 0 \/ Z.log2 n - Z.log2 (Z.pos d) = -1)%Z) by lia.
  destruct Hl as [-> | ->]; cbn [pow2].
  - assert (E : Qle_bool 1 (n # d) = false).
    { destruct (Qle_bool 1 (n # d)) eqn:E; [| reflexivity].
      apply Qle_bool_iff in E. unfold Qle in E. cbn in E. lia. }
    now rewrite E.
  - assert (E : Qle_bool (1 # 2 ^ 1) (n # d) = true).
    { apply Qle_bool_iff. unfold Qle. cbn. lia. }
    now rewrite E.
Qed.

Lemma ilog2_second_quarter (q : Q) : 1 # 4 <= q -> q < 1 # 2 -> ilog2 q = (-2)%Z.
Proof.
  intros Hlo Hhi. unfold ilog2.
  destruct q as [n d]. unfold Qle, Qlt in Hlo, Hhi. cbn [Qnum Qden] in *.
  assert (Hn : (0 < n)%Z) by lia.
  assert (H1 : (Z.log2 (2 * n) <= Z.log2 (Z.pos d))%Z) by (apply Z.log2_le_mono; lia).
  assert (H2 : (Z.log2 (Z.pos d) <= Z.log2 (2 * (2 * n)))%Z) by (apply Z.log2_le_mono; lia).
  rewrite !Z.log2_double in H2 by lia. rewrite Z.log2_double in H1 by exact Hn.
  assert (Hl : (Z.log2 n - Z.log2 (Z.pos d) = -1 \/ Z.log2 n - Z.log2 (Z.pos d) = -2)%Z) by lia.
  destruct Hl as [-> | ->]; cbn [pow2].
  - assert (E : Qle_bool (1 # 2 ^ 1) (n # d) = false).
    { destruct (Qle_bool (1 # 2 ^ 1) (n # d)) eqn:E; [| reflexivity].
      apply Qle_bool_iff in E. unfold Qle in E. cbn in E. lia. }
    now rewrite E.
  - assert (E : Qle_bool (1 # 2 ^ 2) (n # d) = true).
    { apply Qle_bool_iff. unfold Qle. cbn. lia. }
    now rewrite E.
Qed.

Lemma b64_pos_lt_three_quarters (q : Q) :
  1 # 2 <= q -> q < (3 # 4) - (1 # 18014398509481984) -> b64_pos q < 3 # 4.
Proof.
  intros Hlo Hhi. unfold b64_pos.
  rewrite (ilog2_upper_half q Hlo) by lra.
  change (Z.max (-1 - 52) (-1074)) with (-53)%Z.
  change (pow2 (-53)) with (1 # 9007199254740992).
  rewrite Qred_correct.
  assert (Hm : (rne (q / (1 # 9007199254740992)) < 6755399441055744)%Z).
  { apply rne_lt_Z.
    assert (Hs : q / (1 # 9007199254740992) == q * 9007199254740992)
      by (unfold Qdiv, Qinv; simpl; reflexivity).
    rewrite Hs. change (inject_Z 6755399441055744) with 6755399441055744. lra. }
  unfold Qlt, Qmult; cbn [Qnum Qden inject_Z]. lia.
Qed.

Lemma b64_pos_lt_half (q : Q) :
  1 # 4 <= q -> q < (1 # 2) - (1 # 36028797018963968) -> b64_pos q < 1 # 2.
Proof.
  intros Hlo Hhi. unfold b64_pos.
  rewrite (ilog2_second_quarter q Hlo) by lra.
  change (Z.max (-2 - 52) (-1074)) with (-54)%Z.
  change (pow2 (-54)) with (1 # 18014398509481984).
  rewrite Qred_correct.
  assert (Hm : (rne (q / (1 # 18014398509481984)) < 9007199254740992)%Z).
  { apply rne_lt_Z.
    assert (Hs : q / (1 # 18014398509481984) == q * 18014398509481984)
      by (unfold Qdiv, Qinv; simpl; reflexivity).
    rewrite Hs. change (inject_Z 9007199254740992) with 9007199254740992. lra. }
  unfold Qlt, Qmult; cbn [Qnum Qden inject_Z]. lia.
Qed.

(** *** The bands of a quotient of counts

    For totals below 2^52 the float quotient lies in a band exactly when the
    exact quotient does. *)

Lemma quotient_facts (u t : N) :
  (0 < t)%N -> (u <= t)%N ->
  let q := inject_Z (Z.of_N u) / inject_Z (Z.of_N t) in
  0 <= q /\ q <= 1 /\
  (forall (a : Z) (b : positive), a # b <= q <-> (a * Z.of_N t <= Z.pos b * Z.of_N u)%Z).
Proof.
  intros Ht Hu q.
  assert (HT : 0 < inject_Z (Z.of_N t)) by (unfold Qlt; simpl; lia).
  assert (HU : 0 <= inject_Z (Z.of_N u)) by (unfold Qle; simpl; lia).
  assert (HUT : inject_Z (Z.of_N u) <= inject_Z (Z.of_N t)) by (unfold Qle; simpl; lia).
  split; [apply Qle_shift_div_l; lra |].
  split; [apply Qle_shift_div_r; lra |].
  intros a b. unfold q. split.
  - intros H. apply (Qmult_le_compat_r _ _ (inject_Z (Z.of_N t))) in H; [| lra].
    assert (E : inject_Z (Z.of_N u) / inject_Z (Z.of_N t) * inject_Z (Z.of_N t) ==
                inject_Z (Z.of_N u)) by (field; lra).
    rewrite E in H. unfold Qle, Qmult in H. cbn [Qnum Qden inject_Z] in H. lia.
  - intros H. apply Qle_shift_div_l; [exact HT |].
    unfold Qle, Qmult. cbn [Qnum Qden inject_Z]. lia.
Qed.

Lemma truediv_ge_three_quarters (u t : N) :
  (0 < t)%N -> (t < 4503599627370496)%N -> (u <= t)%N ->
  (3 # 4 <= truediv u t <-> (3 * t <= 4 * u)%N).
Proof.
  intros Ht Hbig Hu. unfold truediv.
  destruct (quotient_facts u t Ht Hu) as (H0 & H1 & Hcmp).
  set (q := inject_Z (Z.of_N u) / inject_Z (Z.of_N t)) in *.
  pose proof (Hcmp 3%Z 4%positive) as H34.
  unfold b64. destruct (Qcompare q 0) eqn:E.
  - apply Qeq_alt in E. split; [intros H; lra |].
    intros H. assert (Hq : 3 # 4 <= q) by (apply H34; lia). lra.
  - apply Qlt_alt in E. lra.
  - apply Qgt_alt in E. split.
    + intros Hb. apply N2Z.inj_le. rewrite !N2Z.inj_mul. cbn [Z.of_N].
      apply Z.le_ngt. intros Hlt.
      destruct (Qlt_le_dec q (1 # 2)) as [Hs | Hl].
      * pose proof (b64_pos_le_quarters q 2 E H1) as Hle.
        assert (Hq2 : q <= 2 # 4) by lra. specialize (Hle Hq2). lra.
      * assert (Hq : q < (3 # 4) - (1 # 18014398509481984)).
        { apply Qnot_le_lt. intros Hge.
          assert (Hq4 : ~ (3 # 4 <= q)) by (rewrite H34; lia).
          apply Qnot_le_lt in Hq4.
          (* q = u/t with 4u + 1 <= 3t and t < 2^52 *)
          assert (HT : 0 < inject_Z (Z.of_N t)) by (unfold Qlt; simpl; lia).
          assert (Hqt : q * inject_Z (Z.of_N t) == inject_Z (Z.of_N u))
            by (unfold q; field; lra).
          assert (HZ : 4 * inject_Z (Z.of_N u) + 1 <= 3 * inject_Z (Z.of_N t)).
          { unfold Qle, Qmult, Qplus. cbn [Qnum Qden inject_Z]. lia. }
          assert (HB : inject_Z (Z.of_N t) < 4503599627370496).
          { unfold Qlt. cbn [Qnum Qden inject_Z]. lia. }
          nra. }
        pose proof (b64_pos_lt_three_quarters q Hl Hq). lra.
    + intros H. apply b64_pos_ge_quarters; [exact E | exact H1 |]. apply H34. lia.
Qed.

Lemma truediv_ge_half (u t : N) :
  (0 < t)%N -> (t < 4503599627370496)%N -> (u <= t)%N ->
  (1 # 2 <= truediv u t <-> (t <= 2 * u)%N).
Proof.
  intros Ht Hbig Hu. unfold truediv.
  destruct (quotient_facts u t Ht Hu) as (H0 & H1 & Hcmp).
  set (q := inject_Z (Z.of_N u) / inject_Z (Z.of_N t)) in *.
  pose proof (Hcmp 2%Z 4%positive) as H24.
  unfold b64. destruct (Qcompare q 0) eqn:E.
  - apply Qeq_alt in E. split; [intros H; lra |].
    intros H. assert (Hq : 2 # 4 <= q) by (apply H24; lia). lra.
  - apply Qlt_alt in E. lra.
  - apply Qgt_alt in E. split.
    + intros Hb. apply N2Z.inj_le. rewrite N2Z.inj_mul. cbn [Z.of_N].
      apply Z.le_ngt. intros Hlt.
      destruct (Qlt_le_dec q (1 # 4)) as [Hs | Hl].
      * pose proof (b64_pos_le_quarters q 1 E H1) as Hle.
        assert (Hq1 : q <= 1 # 4) by lra. specialize (Hle Hq1). lra.
      * assert (Hq : q < (1 # 2) - (1 # 36028797018963968)).
        { apply Qnot_le_lt. intros Hge.
          assert (HT : 0 < inject_Z (Z.of_N t)) by (unfold Qlt; simpl; lia).
          assert (Hqt : q * inject_Z (Z.of_N t) == inject_Z (Z.of_N u))
            by (unfold q; field; lra).
          assert (HZ : 2 * inject_Z (Z.of_N u) + 1 <= inject_Z (Z.of_N t)).
          { unfold Qle, Qmult, Qplus. cbn [Qnum Qden inject_Z]. lia. }
          assert (HB : inject_Z (Z.of_N t) < 4503599627370496).
          { unfold Qlt. cbn [Qnum Qden inject_Z]. lia. }
          nra. }
        pose proof (b64_pos_lt_half q Hl Hq). lra.
    + intros H. assert (Hq : 2 # 4 <= b64_pos q).
      { apply b64_pos_ge_quarters; [exact E | exact H1 |]. apply H24. lia. }
      lra.
Qed.

End FloatFacts.

(** ** Strings *)

Module StrFacts.
Import Str.

Lemma lower_ascii_idem (c : ascii) : lower_ascii (lower_ascii c) = lower_ascii c.
Proof.
  destruct c as [[] [] [] [] [] [] [] []]; reflexivity.
Qed.

Lemma ascii_lower_idem (s : string) : ascii_lower (ascii_lower s) = ascii_lower s.
Proof.
  induction s as [| c s IH]; simpl; [reflexivity |].
  now rewrite lower_ascii_idem, IH.
Qed.

Lemma lower_ascii_isascii (c : ascii) :
  (N_of_ascii c <? 128)%N = true -> (N_of_ascii (lower_ascii c) <? 128)%N = true.
Proof.
  destruct c as [[] [] [] [] [] [] [] []]; intros H; solve [reflexivity | discriminate H].
Qed.

Lemma isascii_ascii_lower (s : string) :
  isascii s = true -> isascii (ascii_lower s) = true.
Proof.
  induction s as [| c s IH]; [reflexivity |]. cbn [isascii ascii_lower].
  rewrite !andb_true_iff. intros [Hc Hs]. split; [now apply lower_ascii_isascii | now apply IH].
Qed.

(** On ASCII text every lowercasing is the ASCII fold, and folding the text
    beforehand changes nothing. *)
Lemma lower_folded {L : Lower} (s : string) :
  isascii s = true -> lower (ascii_lower s) = lower s.
Proof.
  intros H. rewrite (lower_isascii _ (isascii_ascii_lower s H)), (lower_isascii s H).
  apply ascii_lower_idem.
Qed.

Lemma startswith_app (sub rest : string) : startswith sub (sub ++ rest) = true.
Proof.
  induction sub as [| c sub IH]; simpl; [reflexivity |].
  now rewrite Ascii.eqb_refl.
Qed.

Lemma contains_startswith (sub s : string) : startswith sub s = true -> contains sub s = true.
Proof. intros H. destruct s; simpl; now rewrite H. Qed.

Lemma contains_app (pre sub post : string) : contains sub (pre ++ sub ++ post) = true.
Proof.
  induction pre as [| c pre IH].
  - apply contains_startswith. exact (startswith_app sub post).
  - change (String c pre ++ sub ++ post) with (String c (pre ++ sub ++ post)).
    cbn [contains].
    destruct (startswith sub (String c (pre ++ sub ++ post))); [reflexivity | exact IH].
Qed.

(** Skipped positions are positions dropped. *)
Lemma count_scan_skip (sub s : string) (k : nat) :
  sub <> EmptyString -> count_scan sub s k = count_scan sub (drop k s) 0.
Proof.
  intros Hsub. revert k.
  induction s as [| c s IH]; intros [| k]; simpl; try reflexivity.
  - destruct sub; [congruence | reflexivity].
  - apply IH.
Qed.

(** The three equations of the left-to-right scan for non-overlapping
    occurrences of a non-empty [sub]. *)
Lemma count_nil (sub : string) : sub <> EmptyString -> count EmptyString sub = 0%N.
Proof. intros H. destruct sub; [congruence | reflexivity]. Qed.

Lemma count_match (sub s : string) :
  sub <> EmptyString -> startswith sub s = true ->
  count s sub = (1 + count (drop (String.length sub) s) sub)%N.
Proof.
  intros Hsub Hm. unfold count.
  destruct s as [| c s].
  - destruct sub; [congruence | discriminate].
  - cbn [count_scan]. rewrite Hm. f_equal.
    rewrite count_scan_skip by assumption.
    destruct sub as [| a sub]; [congruence |].
    change (String.length (String a sub)) with (S (String.length sub)).
    cbn [drop]. now replace (S (String.length sub) - 1)%nat with (String.length sub) by lia.
Qed.

Lemma count_no_match (sub : string) (c : ascii) (s : string) :
  startswith sub (String c s) = false -> count (String c s) sub = count s sub.
Proof.
  intros Hm. unfold count. cbn [count_scan]. now rewrite Hm.
Qed.

End StrFacts.

(** ** The marker scanner *)

Section Scanner.

Variable text_lower : string.

Lemma fold_markers_lookup (markers : list string) (acc : gmap string N) (m : string) :
  List.fold_left (record_marker text_lower) markers acc !! m =
  if bool_decide (m ∈ markers) && (0 <? Str.count text_lower m)%N
  then Some (Str.count text_lower m)
  else acc !! m.
Proof.
  revert acc. induction markers as [| x markers IH]; intros acc; simpl.
  - reflexivity.
  - rewrite IH. unfold record_marker.
    destruct (decide (m = x)) as [-> | Hne].
    + rewrite (bool_decide_eq_true_2 (x ∈ x :: markers)) by left.
      destruct (0 <? Str.count text_lower x)%N eqn:Hc.
      * rewrite lookup_insert_eq. now destruct (bool_decide _).
      * now rewrite andb_false_r.
    + assert (Hin : bool_decide (m ∈ x :: markers) = bool_decide (m ∈ markers)).
      { apply bool_decide_ext. rewrite elem_of_cons. tauto. }
      rewrite Hin.
      destruct (bool_decide (m ∈ markers) && (0 <? Str.count text_lower m)%N); [reflexivity |].
      destruct (0 <? Str.count text_lower x)%N; [| reflexivity].
      now rewrite lookup_insert_ne.
Qed.

(** What a hit dict holds. *)
Lemma count_markers_lookup (markers : list string) (m : string) :
  count_markers markers text_lower !! m =
  if bool_decide (m ∈ markers) && (0 <? Str.count text_lower m)%N
  then Some (Str.count text_lower m)
  else None.
Proof.
  unfold count_markers. exact (fold_markers_lookup markers ∅ m).
Qed.

Lemma count_markers_spec (markers : list string) (m : string) (c : N) :
  count_markers markers text_lower !! m = Some c <->
  m ∈ markers /\ c = Str.count text_lower m /\ (0 < c)%N.
Proof.
  rewrite count_markers_lookup.
  destruct (bool_decide (m ∈ markers)) eqn:Hin; simpl.
  - apply bool_decide_eq_true_1 in Hin.
    destruct (0 <? Str.count text_lower m)%N eqn:Hc.
    + apply N.ltb_lt in Hc. split.
      * intros [= <-]. auto.
      * intros (_ & -> & _). reflexivity.
    + apply N.ltb_ge in Hc. split; [discriminate |]. intros (_ & -> & Hpos). lia.
  - apply bool_decide_eq_false_1 in Hin. split; [discriminate | tauto].
Qed.

(** A repeated marker assigns the same count to the same key again. *)
Lemma count_markers_remove_dups (markers : list string) :
  count_markers markers text_lower = count_markers (remove_dups markers) text_lower.
Proof.
  apply map_eq. intros m. rewrite !count_markers_lookup.
  assert (E : bool_decide (m ∈ markers) = bool_decide (m ∈ remove_dups markers)).
  { apply bool_decide_ext. now rewrite elem_of_remove_dups. }
  now rewrite E.
Qed.

End Scanner.

(** ** The coefficient engine and the report boundary *)

Section Engine.

Context {L : Str.Lower}.
Local Open Scope Q_scope.

Lemma sum_values_empty : sum_values ∅ = 0%N.
Proof. unfold sum_values. apply map_fold_empty. Qed.

Lemma sum_values_insert (hits : gmap string N) (marker : string) (count : N) :
  hits !! marker = None ->
  sum_values (<[marker := count]> hits) = (sum_values hits + count)%N.
Proof.
  intros Hnone. unfold sum_values.
  apply (map_fold_insert_L (fun _ c acc => (acc + c)%N)); [| exact Hnone].
  intros. lia.
Qed.

Lemma sum_values_singleton (marker : string) (count : N) :
  sum_values {[marker := count]} = count.
Proof.
  rewrite <- insert_empty, sum_values_insert by apply lookup_empty.
  rewrite sum_values_empty. lia.
Qed.

Lemma geb_true (a b : Q) : Float.geb a b = true <-> b <= a.
Proof. unfold Float.geb. apply Qle_bool_iff. Qed.

Lemma ltb_true (a b : Q) : Float.ltb a b = true <-> a < b.
Proof.
  unfold Float.ltb. rewrite negb_true_iff.
  destruct (Qle_bool b a) eqn:E.
  - apply Qle_bool_iff in E. split; [discriminate | lra].
  - split; [intros _ | reflexivity].
    apply Qnot_le_lt. intros H. apply Qle_bool_iff in H. congruence.
Qed.

Lemma ltb_false (a b : Q) : Float.ltb a b = false <-> b <= a.
Proof.
  unfold Float.ltb. rewrite negb_false_iff. apply Qle_bool_iff.
Qed.

Lemma raw_unity_coefficient_unit (separation_hits unity_hits : gmap string N) :
  0 <= raw_unity_coefficient separation_hits unity_hits <= 1.
Proof.
  unfold raw_unity_coefficient.
  destruct (_ =? 0)%N.
  - vm_compute. split; discriminate.
  - apply FloatFacts.truediv_unit. lia.
Qed.

Lemma UnityReport_init_ok c m s u r extra :
  0 <= c <= 1 -> UnityReport_init c m s u r extra = Ok (mkUnityReport c m s u r).
Proof.
  intros [H0 H1]. unfold UnityReport_init.
  apply geb_true in H0, H1. now rewrite H0, H1.
Qed.

Lemma UnityReport_init_raise c m s u r extra :
  ~ (0 <= c <= 1) -> UnityReport_init c m s u r extra = Raise ValidationError.
Proof.
  intros Hout. unfold UnityReport_init.
  destruct (Float.geb c 0) eqn:H0; [| reflexivity].
  destruct (Float.geb 1 c) eqn:H1; [| reflexivity].
  apply geb_true in H0, H1. tauto.
Qed.

Lemma report_of_hits_eq (separation_hits unity_hits : gmap string N) :
  report_of_hits separation_hits unity_hits =
  Ok {| coefficient := Float.round (raw_unity_coefficient separation_hits unity_hits) 4;
        analysis_method := "V1: Keyword Lexicon Density";
        separation_hits := separation_hits;
        unity_hits := unity_hits;
        conscious_reframing := reframing_of (raw_unity_coefficient separation_hits unity_hits) |}.
Proof.
  unfold report_of_hits. apply UnityReport_init_ok.
  apply FloatFacts.round_unit, raw_unity_coefficient_unit.
Qed.

Lemma v1_keyword_calculate_eq (text : string) :
  v1_keyword_calculate text = Ok (base_report_of text).
Proof. unfold v1_keyword_calculate. apply report_of_hits_eq. Qed.

Lemma base_coefficient_unit (text : string) : 0 <= base_coefficient text <= 1.
Proof. apply FloatFacts.round_unit, raw_unity_coefficient_unit. Qed.

Lemma get_unity_report_plain (text : string) (user_context : option (gmap string PyVal)) :
  get_unity_report text user_context false = Ok (base_report_of text).
Proof.
  unfold get_unity_report. now rewrite v1_keyword_calculate_eq.
Qed.

Lemma get_unity_report_contextual (text : string) (user_context : option (gmap string PyVal)) :
  get_unity_report text user_context true = Ok (contextual_report_of text user_context).
Proof.
  unfold get_unity_report. rewrite v1_keyword_calculate_eq.
  cbn [mbind Result_bind negb base_report_of coefficient analysis_method
       separation_hits unity_hits conscious_reframing].
  unfold contextual_report_of.
  apply UnityReport_init_ok. exact (base_coefficient_unit text).
Qed.

End Engine.

(** ** The text is read through [str.lower] only *)

Section LowerOnly.

Context {L1 L2 : Str.Lower}.
Variables text1 text2 : string.
Hypothesis same_lower : Str.lower (Lower := L1) text1 = Str.lower (Lower := L2) text2.

Lemma separation_hits_of_ext :
  separation_hits_of (L := L1) text1 = separation_hits_of (L := L2) text2.
Proof. unfold separation_hits_of. now rewrite same_lower. Qed.

Lemma unity_hits_of_ext :
  unity_hits_of (L := L1) text1 = unity_hits_of (L := L2) text2.
Proof. unfold unity_hits_of. now rewrite same_lower. Qed.

Lemma base_coefficient_ext :
  base_coefficient (L := L1) text1 = base_coefficient (L := L2) text2.
Proof. unfold base_coefficient. now rewrite separation_hits_of_ext, unity_hits_of_ext. Qed.

Lemma base_reframing_ext :
  base_reframing (L := L1) text1 = base_reframing (L := L2) text2.
Proof. unfold base_reframing. now rewrite separation_hits_of_ext, unity_hits_of_ext. Qed.

Lemma base_report_of_ext :
  base_report_of (L := L1) text1 = base_report_of (L := L2) text2.
Proof.
  unfold base_report_of.
  now rewrite separation_hits_of_ext, unity_hits_of_ext, base_coefficient_ext, base_reframing_ext.
Qed.

Lemma v1_keyword_calculate_ext :
  v1_keyword_calculate (L := L1) text1 = v1_keyword_calculate (L := L2) text2.
Proof. rewrite !v1_keyword_calculate_eq. now rewrite base_report_of_ext. Qed.

Lemma detect_ext (user_context : option (gmap string PyVal)) :
  ContextDetector.detect (L := L1) text1 user_context =
  ContextDetector.detect (L := L2) text2 user_context.
Proof. unfold ContextDetector.detect. now rewrite same_lower. Qed.

Lemma contextualize_analysis_ext (c : Q) (user_context : option (gmap string PyVal)) :
  contextualize_analysis (L := L1) c text1 user_context =
  contextualize_analysis (L := L2) c text2 user_context.
Proof.
  unfold contextualize_analysis, ConsciousnessContextualizer.contextualize_coefficient.
  now rewrite detect_ext.
Qed.

Lemma contextual_report_of_ext (user_context : option (gmap string PyVal)) :
  contextual_report_of (L := L1) text1 user_context =
  contextual_report_of (L := L2) text2 user_context.
Proof.
  unfold contextual_report_of.
  now rewrite separation_hits_of_ext, unity_hits_of_ext, base_coefficient_ext, base_reframing_ext,
    contextualize_analysis_ext.
Qed.

Lemma get_unity_report_ext (user_context : option (gmap string PyVal)) (include_context : bool) :
  get_unity_report (L := L1) text1 user_context include_context =
  get_unity_report (L := L2) text2 user_context include_context.
Proof.
  destruct include_context.
  - rewrite !get_unity_report_contextual. now rewrite contextual_report_of_ext.
  - rewrite !get_unity_report_plain. now rewrite base_report_of_ext.
Qed.

End LowerOnly.

(** On ASCII text the analysis is the one computed with the ASCII fold. *)
Lemma ascii_same_lower {L : Str.Lower} (text : string) :
  Str.isascii text = true ->
  Str.lower (Lower := L) text = Str.lower (Lower := Str.ascii_Lower) text.
Proof. apply Str.lower_isascii. Qed.

(** ** C3: the marker scanner *)

(** C3. For every text the scanner works on the lower-cased text, whatever
    [str.lower] makes of it; for each lexicon a marker is a key of the hit
    dict exactly when it belongs to the lexicon and its own [str.count] in
    the folded text is positive, and the entry is that count (so no entry is
    zero and entries do not depend on other markers).  Counting is
    case-insensitive: texts with the same folded form have the same report,
    and the report of an ASCII text is the report of its folded form.  The
    text "love love love fear" gives unity_hits["love"] = 3,
    separation_hits["fear"] = 1 and coefficient 0.75. *)
Theorem C3_marker_scanner {L : Str.Lower} :
  (forall (text marker : string) (c : N),
     exists report,
       v1_keyword_calculate text = Ok report /\
       separation_hits report = count_markers SEPARATION_MARKERS (Str.lower text) /\
       unity_hits report = count_markers UNITY_MARKERS (Str.lower text) /\
       (separation_hits report !! marker = Some c <->
          marker ∈ SEPARATION_MARKERS /\
          c = Str.count (Str.lower text) marker /\ (0 < c)%N) /\
       (unity_hits report !! marker = Some c <->
          marker ∈ UNITY_MARKERS /\
          c = Str.count (Str.lower text) marker /\ (0 < c)%N)) /\
  (forall text1 text2,
     Str.lower text1 = Str.lower text2 ->
     v1_keyword_calculate text1 = v1_keyword_calculate text2) /\
  (forall text,
     Str.isascii text = true ->
     Str.lower text = Str.ascii_lower text /\
     v1_keyword_calculate (Str.ascii_lower text) = v1_keyword_calculate text) /\
  (exists report,
     v1_keyword_calculate "love love love fear" = Ok report /\
     unity_hits report !! "love" = Some 3%N /\
     separation_hits report !! "fear" = Some 1%N /\
     coefficient report = (3 # 4)%Q) /\
  v1_keyword_calculate "" =
    Ok (mkUnityReport (1 # 2) "V1: Keyword Lexicon Density" ∅ ∅ BALANCED_MESSAGE) /\
  v1_keyword_calculate "LoVe AnD uNiTy" = v1_keyword_calculate "love and unity" /\
  Str.count "aaaa" "aa" = 2%N.
Proof.
  split; [| split; [| split; [| split; [| split; [| split]]]]].
  - intros text marker c.
    exists (base_report_of text). split; [apply v1_keyword_calculate_eq |].
    split; [reflexivity |]. split; [reflexivity |].
    split; exact (count_markers_spec (Str.lower text) _ marker c).
  - intros text1 text2 H. exact (v1_keyword_calculate_ext text1 text2 H).
  - intros text H. split; [exact (Str.lower_isascii text H) |].
    apply v1_keyword_calculate_ext. apply StrFacts.lower_folded, H.
  - rewrite (v1_keyword_calculate_ext (L2 := Str.ascii_Lower) "love love love fear"
               "love love love fear" (ascii_same_lower "love love love fear" eq_refl)).
    exists (base_report_of (L := Str.ascii_Lower) "love love love fear").
    split; [apply v1_keyword_calculate_eq |].
    split; [| split]; vm_compute; reflexivity.
  - rewrite (v1_keyword_calculate_ext (L2 := Str.ascii_Lower) "" "" (ascii_same_lower "" eq_refl)).
    vm_compute. reflexivity.
  - apply v1_keyword_calculate_ext.
    rewrite (ascii_same_lower "LoVe AnD uNiTy" eq_refl).
    rewrite (ascii_same_lower "love and unity" eq_refl). vm_compute. reflexivity.
  - vm_compute. reflexivity.
Qed.

(** ** C4: the validation guard and totality *)

(** C4. Constructing a report raises the validation error exactly when the
    coefficient is outside [0, 1] and succeeds otherwise; and the analysis
    operation returns a report, with a coefficient in [0, 1], for every text,
    every user context (absent, empty, or with values of any kind in its
    fields) and either setting of include_context. *)
Theorem C4_validation_and_totality {L : Str.Lower} :
  (forall c m s u r extra,
     (UnityReport_init c m s u r extra = Raise ValidationError <-> ~ (0 <= c <= 1)%Q) /\
     (UnityReport_init c m s u r extra = Ok (mkUnityReport c m s u r) <-> (0 <= c <= 1)%Q)) /\
  (forall separation_hits unity_hits,
     (0 <= Float.round (raw_unity_coefficient separation_hits unity_hits) 4 <= 1)%Q) /\
  (forall text user_context include_context,
     exists report,
       get_unity_report text user_context include_context = Ok report /\
       (0 <= coefficient report <= 1)%Q).
Proof.
  split; [| split].
  - intros c m s u r extra. split; split.
    + intros Hr Hin. rewrite UnityReport_init_ok in Hr by exact Hin. discriminate.
    + apply UnityReport_init_raise.
    + intros Hok.
      destruct (Qlt_le_dec c 0) as [Hneg | H0].
      { rewrite UnityReport_init_raise in Hok by (intros [? ?]; lra). discriminate. }
      destruct (Qlt_le_dec 1 c) as [Hbig | H1].
      { rewrite UnityReport_init_raise in Hok by (intros [? ?]; lra). discriminate. }
      split; assumption.
    + apply UnityReport_init_ok.
  - intros s u. apply FloatFacts.round_unit, raw_unity_coefficient_unit.
  - intros text user_context [|].
    + exists (contextual_report_of text user_context).
      split; [apply get_unity_report_contextual |]. exact (base_coefficient_unit text).
    + exists (base_report_of text).
      split; [apply get_unity_report_plain |]. exact (base_coefficient_unit text).
Qed.

(** ** C2: the coefficient engine *)

(** C2, as stated, fails: with 3752 unity hits and 1251 separation hits the
    reported coefficient is 0.75 (3752/5003 = 0.74995..., rounded to four
    digits), yet the message is the balanced one, not the high-unity one.  A
    text of 3752 times "love " and 1251 times "fear " has these hits. *)
Lemma C2_message_band_of_reported_coefficient_fails :
  (exists report,
     report_of_hits {[ "fear" := 1251%N ]} {[ "love" := 3752%N ]} = Ok report /\
     coefficient report = (3 # 4)%Q /\
     Float.geb (coefficient report) Float.c0_75 = true /\
     conscious_reframing report = BALANCED_MESSAGE /\
     conscious_reframing report <> HIGH_UNITY_MESSAGE) /\
  v1_keyword_calculate (repeat_str "love " 3752 ++ repeat_str "fear " 1251) =
  report_of_hits {[ "fear" := 1251%N ]} {[ "love" := 3752%N ]}.
Proof.
  split.
  - eexists. split; [apply report_of_hits_eq |].
    repeat split; try (vm_compute; reflexivity).
    vm_compute. discriminate.
  - vm_compute. reflexivity.
Qed.

Lemma messages_distinct :
  HIGH_UNITY_MESSAGE <> BALANCED_MESSAGE /\
  HIGH_UNITY_MESSAGE <> SEPARATION_MESSAGE /\
  BALANCED_MESSAGE <> SEPARATION_MESSAGE.
Proof. repeat split; discriminate. Qed.

Lemma reframing_of_high (q : Q) :
  reframing_of q = HIGH_UNITY_MESSAGE <-> (3 # 4 <= q)%Q.
Proof.
  unfold reframing_of. destruct (Float.geb q Float.c0_75) eqn:E1.
  - apply geb_true in E1. tauto.
  - change Float.c0_75 with (3 # 4)%Q in E1.
    assert (H1 : ~ (3 # 4 <= q)%Q) by (intros H; apply geb_true in H; congruence).
    destruct messages_distinct as (Hhb & Hhs & _).
    destruct (Float.geb q Float.c0_5);
      (split; [intros H; symmetry in H; contradiction | intros H; contradiction]).
Qed.

Lemma reframing_of_separation (q : Q) :
  reframing_of q = SEPARATION_MESSAGE <-> (q < 1 # 2)%Q.
Proof.
  unfold reframing_of. destruct messages_distinct as (Hhb & Hhs & Hbs).
  destruct (Float.geb q Float.c0_75) eqn:E1.
  - apply geb_true in E1. change Float.c0_75 with (3 # 4)%Q in E1.
    split; [congruence | lra].
  - destruct (Float.geb q Float.c0_5) eqn:E2.
    + apply geb_true in E2. change Float.c0_5 with (1 # 2)%Q in E2.
      split; [congruence | lra].
    + change Float.c0_5 with (1 # 2)%Q in E2.
      split; [intros _ | reflexivity].
      apply Qnot_le_lt. intros H. apply geb_true in H. congruence.
Qed.

Lemma reframing_of_balanced (q : Q) :
  reframing_of q = BALANCED_MESSAGE <-> (1 # 2 <= q)%Q /\ (q < 3 # 4)%Q.
Proof.
  pose proof (reframing_of_high q) as Hh. pose proof (reframing_of_separation q) as Hs.
  destruct messages_distinct as (Hhb & Hhs & Hbs).
  assert (Hcases : reframing_of q = HIGH_UNITY_MESSAGE \/ reframing_of q = BALANCED_MESSAGE \/
                   reframing_of q = SEPARATION_MESSAGE).
  { unfold reframing_of. destruct (Float.geb q Float.c0_75); [auto |].
    destruct (Float.geb q Float.c0_5); auto. }
  split.
  - intros Hb. split.
    + apply Qnot_lt_le. intros H. apply Hs in H. congruence.
    + apply Qnot_le_lt. intros H. apply Hh in H. congruence.
  - intros [Hlo Hhi]. destruct Hcases as [H | [H | H]]; [| exact H |].
    + apply Hh in H. lra.
    + apply Hs in H. lra.
Qed.

(** C2, amended. The totals are the sums of the dict values; the reported
    coefficient is 0.5 when the grand total is zero and otherwise the quotient
    unity_count / total rounded to four decimal digits; the base message is
    chosen by the three bands applied to the quotient before it is rounded
    (0.5 when the total is zero): at least 0.75 high unity, from 0.5 up to
    0.75 balanced, below 0.5 separation-leaning.  For totals below 2^52 the
    float quotient is in a band exactly when the exact quotient of the counts
    is. *)
Theorem C2_coefficient_engine (sep_hits uni_hits : gmap string N) :
  let separation_count := sum_values sep_hits in
  let unity_count := sum_values uni_hits in
  let total := (separation_count + unity_count)%N in
  let quotient := if (total =? 0)%N then (1 # 2)%Q else Float.truediv unity_count total in
  exists report,
    report_of_hits sep_hits uni_hits = Ok report /\
    separation_hits report = sep_hits /\
    unity_hits report = uni_hits /\
    coefficient report = Float.round quotient 4 /\
    (total = 0%N -> coefficient report = (1 # 2)%Q) /\
    (conscious_reframing report = HIGH_UNITY_MESSAGE <-> (3 # 4 <= quotient)%Q) /\
    (conscious_reframing report = BALANCED_MESSAGE <->
       (1 # 2 <= quotient)%Q /\ (quotient < 3 # 4)%Q) /\
    (conscious_reframing report = SEPARATION_MESSAGE <-> (quotient < 1 # 2)%Q) /\
    ((0 < total < 4503599627370496)%N ->
       (conscious_reframing report = HIGH_UNITY_MESSAGE <->
          (3 * total <= 4 * unity_count)%N) /\
       (conscious_reframing report = BALANCED_MESSAGE <->
          (total <= 2 * unity_count)%N /\ (4 * unity_count < 3 * total)%N) /\
       (conscious_reframing report = SEPARATION_MESSAGE <->
          (2 * unity_count < total)%N)).
Proof.
  intros separation_count unity_count total quotient.
  eexists. split; [apply report_of_hits_eq |]. cbn [coefficient conscious_reframing].
  assert (Hq : raw_unity_coefficient sep_hits uni_hits = quotient) by reflexivity.
  rewrite Hq.
  split; [reflexivity |]. split; [reflexivity |]. split; [reflexivity |].
  split; [| split; [| split; [| split]]].
  - intros Hz. unfold quotient. rewrite Hz. reflexivity.
  - apply reframing_of_high.
  - apply reframing_of_balanced.
  - apply reframing_of_separation.
  - intros [Hpos Hbig].
    assert (Hquot : quotient = Float.truediv unity_count total).
    { unfold quotient. destruct (N.eqb_spec total 0); [lia | reflexivity]. }
    assert (Hu : (unity_count <= total)%N) by (unfold total; lia).
    pose proof (FloatFacts.truediv_ge_three_quarters unity_count total Hpos Hbig Hu) as H34.
    pose proof (FloatFacts.truediv_ge_half unity_count total Hpos Hbig Hu) as H12.
    rewrite <- Hquot in H34, H12.
    rewrite reframing_of_high, reframing_of_balanced, reframing_of_separation.
    split; [exact H34 |]. split.
    + rewrite H12. split.
      * intros [Hlo Hhi]. split; [exact Hlo |].
        apply N.lt_nge. intros Hge. apply H34 in Hge. lra.
      * intros [Hlo Hhi]. split; [exact Hlo |].
        apply Qnot_le_lt. intros Hge. apply H34 in Hge. lia.
    + split.
      * intros Hlt. apply N.lt_nge. intros Hge. apply H12 in Hge. lra.
      * intros Hlt. apply Qnot_le_lt. intros Hge. apply H12 in Hge. lia.
Qed.

(** An instance of C2: 3752 unity hits against 1251 separation hits lie in
    the balanced band. *)
Lemma C2_coefficient_engine_witness :
  exists report,
    report_of_hits {[ "fear" := 1251%N ]} {[ "love" := 3752%N ]} = Ok report /\
    conscious_reframing report = BALANCED_MESSAGE.
Proof.
  destruct (C2_coefficient_engine {[ "fear" := 1251%N ]} {[ "love" := 3752%N ]})
    as (report & Hrep & _ & _ & _ & _ & _ & _ & _ & Hbands).
  exists report. split; [exact Hrep |].
  rewrite !sum_values_singleton in Hbands.
  apply Hbands; lia.
Defined.

(** ** C6: the lexicons *)

(** C6, as stated, fails: "impossible" is listed twice among the separation
    markers and "together" twice among the unity markers. *)
Lemma C6_lexicons_have_duplicates :
  SEPARATION_MARKERS !! 2%nat = Some "impossible" /\
  SEPARATION_MARKERS !! 55%nat = Some "impossible" /\
  UNITY_MARKERS !! 8%nat = Some "together" /\
  UNITY_MARKERS !! 30%nat = Some "together" /\
  ~ (NoDup SEPARATION_MARKERS /\ NoDup UNITY_MARKERS /\
     Forall (fun m => m ∉ UNITY_MARKERS) SEPARATION_MARKERS).
Proof.
  repeat split; try reflexivity.
  intros (Hsep & _ & _).
  pose proof (NoDup_lookup _ 2%nat 55%nat "impossible" Hsep eq_refl eq_refl).
  discriminate.
Qed.

(** The markers are ASCII strings without capital letters. *)
Lemma lowercase_separation_markers :
  Forall (fun m => Str.isascii m = true /\ Str.ascii_lower m = m) SEPARATION_MARKERS.
Proof. apply (bool_decide_unpack _). vm_compute. reflexivity. Qed.

Lemma lowercase_unity_markers :
  Forall (fun m => Str.isascii m = true /\ Str.ascii_lower m = m) UNITY_MARKERS.
Proof. apply (bool_decide_unpack _). vm_compute. reflexivity. Qed.

(** So are the indicator words of the detector. *)
Lemma lowercase_indicator_words :
  Forall (fun t => Forall (fun w => Str.isascii w = true /\ Str.ascii_lower w = w)
                          (indicators_of t))
         detection_categories.
Proof. apply (bool_decide_unpack _). vm_compute. reflexivity. Qed.

(** C6, amended. Every entry of the two lexicons is a lowercase string and
    no string belongs to both lexicons; entries are repeated within a lexicon,
    and a repeated entry leaves the hit dict unchanged. *)
Theorem C6_lexicons {L : Str.Lower} :
  Forall (fun m => Str.lower m = m) SEPARATION_MARKERS /\
  Forall (fun m => Str.lower m = m) UNITY_MARKERS /\
  Forall (fun m => m ∉ UNITY_MARKERS) SEPARATION_MARKERS /\
  (forall text_lower,
     count_markers SEPARATION_MARKERS text_lower =
       count_markers (remove_dups SEPARATION_MARKERS) text_lower /\
     count_markers UNITY_MARKERS text_lower =
       count_markers (remove_dups UNITY_MARKERS) text_lower).
Proof.
  split; [| split; [| split]].
  - apply (Forall_impl _ _ _ lowercase_separation_markers).
    intros m [Hascii Hfold]. now rewrite (Str.lower_isascii m Hascii).
  - apply (Forall_impl _ _ _ lowercase_unity_markers).
    intros m [Hascii Hfold]. now rewrite (Str.lower_isascii m Hascii).
  - apply (bool_decide_unpack _). vm_compute. reflexivity.
  - intros text_lower. split; apply count_markers_remove_dups.
Qed.

(** ** C8: heuristic content-type detection *)

Section Detection.

Context {L : Str.Lower}.
Import ContextDetector.
Local Open Scope Q_scope.

Lemma score_is_density (text : string) (indicators : list string) :
  NoDup indicators -> indicators <> [] ->
  _calculate_indicator_score text indicators =
  Float.truediv
    (N.of_nat (size (list_to_set (C := gset string)
                       (List.filter (fun indicator => Str.contains indicator text) indicators))))
    (N.of_nat (List.length indicators)).
Proof.
  intros Hnd Hne. destruct indicators as [| x l]; [congruence |].
  unfold _calculate_indicator_score.
  rewrite size_list_to_set; [reflexivity |].
  apply NoDup_ListNoDup, List.NoDup_filter, NoDup_ListNoDup, Hnd.
Qed.

Lemma indicators_NoDup (t : ContentType) : NoDup (indicators_of t).
Proof.
  destruct t; apply (bool_decide_unpack _); vm_compute; reflexivity.
Qed.

Lemma score_of_category (t : ContentType) (text : string) :
  t ∈ detection_categories ->
  _calculate_indicator_score text (indicators_of t) = match_density t text.
Proof.
  intros Hin. unfold match_density, present_indicators.
  apply score_is_density; [apply indicators_NoDup |].
  unfold detection_categories in Hin.
  repeat (apply elem_of_cons in Hin as [-> | Hin]; [discriminate |]).
  inversion Hin.
Qed.

Lemma scores_eq (text : string) :
  scores text = List.map (fun t => (t, match_density t text)) detection_categories.
Proof.
  unfold scores, detection_categories. cbn [List.map].
  rewrite <- !score_of_category by (unfold detection_categories; repeat constructor).
  reflexivity.
Qed.

(** [max_from] returns an item of the list that no item exceeds. *)
Lemma max_from_spec (items : list (ContentType * Q)) (best : ContentType * Q) :
  max_from best items ∈ best :: items /\
  Forall (fun it => snd it <= snd (max_from best items)) (best :: items).
Proof.
  revert best. induction items as [| it items IH]; intros best.
  - cbn. split; [left |]. constructor; [lra | constructor].
  - unfold max_from. cbn [List.fold_left].
    set (b' := if Float.ltb (snd best) (snd it) then it else best).
    destruct (IH b') as [Hin Hall]. fold (max_from b' items).
    assert (Hb : snd best <= snd b' /\ snd it <= snd b').
    { unfold b'. destruct (Float.ltb (snd best) (snd it)) eqn:E.
      - apply ltb_true in E. lra.
      - apply ltb_false in E. lra. }
    apply Forall_cons in Hall as [Hb' Hall].
    split.
    + apply elem_of_cons in Hin as [-> | Hin].
      * unfold b'. destruct (Float.ltb _ _); [right; left | left].
      * right; right; exact Hin.
    + repeat constructor; try lra. exact Hall.
Qed.

Lemma max_value_from (items : list (ContentType * Q)) (best : ContentType * Q) :
  List.fold_left (fun b x => if Float.ltb b x then x else b) (List.map snd items) (snd best) =
  snd (max_from best items).
Proof.
  revert best. induction items as [| it items IH]; intros best; [reflexivity |].
  unfold max_from. cbn [List.map List.fold_left]. fold (max_from
    (if Float.ltb (snd best) (snd it) then it else best) items).
  rewrite <- IH. now destruct (Float.ltb (snd best) (snd it)).
Qed.

Lemma scores_get_category (text : string) (t : ContentType) :
  t ∈ detection_categories ->
  scores_get (List.map (fun t => (t, match_density t text)) detection_categories) t =
  match_density t text.
Proof.
  intros Hin. unfold detection_categories in Hin.
  repeat (apply elem_of_cons in Hin as [-> | Hin]; [reflexivity |]).
  inversion Hin.
Qed.

(** The result of [_detect_content_type] in terms of the match densities. *)
Lemma detect_content_type_spec (text : string) :
  exists best,
    best ∈ detection_categories /\
    Forall (fun t => match_density t text <= match_density best text) detection_categories /\
    _detect_content_type text =
      if Float.ltb (match_density best text) Float.c0_1 then (UNKNOWN, 0)
      else (best, Float.min (match_density best text) 1).
Proof.
  unfold _detect_content_type. rewrite scores_eq.
  set (table := List.map (fun t => (t, match_density t text)) detection_categories).
  set (first := (FICTION, match_density FICTION text)).
  set (rest := [(HORROR, match_density HORROR text); (COMEDY, match_density COMEDY text);
                (TECHNICAL, match_density TECHNICAL text);
                (ACADEMIC, match_density ACADEMIC text);
                (ARTISTIC, match_density ARTISTIC text)]).
  assert (Htable : table = first :: rest) by reflexivity.
  destruct (max_from_spec rest first) as [Hin Hall].
  rewrite <- Htable in Hin, Hall.
  assert (Hmax : max_value table = snd (max_from first rest)).
  { rewrite Htable. unfold max_value. cbn [List.map]. apply max_value_from. }
  assert (Hkey : max_key table = fst (max_from first rest)) by (rewrite Htable; reflexivity).
  apply list_elem_of_In, List.in_map_iff in Hin as (best & Hbest & Hmem).
  apply list_elem_of_In in Hmem.
  exists best. split; [exact Hmem |].
  rewrite <- Hbest in Hmax, Hkey, Hall. cbn [fst snd] in Hmax, Hkey, Hall.
  split.
  - apply Forall_forall. intros t Ht.
    rewrite Forall_forall in Hall.
    apply (Hall (t, match_density t text)).
    apply list_elem_of_In, List.in_map_iff.
    exists t. split; [reflexivity | apply list_elem_of_In; exact Ht].
  - rewrite Htable at 1. cbn [orb]. rewrite Hmax, Hkey.
    unfold table. rewrite (scores_get_category text best Hmem). reflexivity.
Qed.

(** Heuristic detection yields one of the six scored categories or unknown. *)
Lemma detect_content_type_range (text : string) :
  fst (_detect_content_type text) = UNKNOWN \/
  fst (_detect_content_type text) ∈ detection_categories.
Proof.
  destruct (detect_content_type_spec text) as (best & Hmem & _ & ->).
  destruct (Float.ltb _ _); [left | right]; [reflexivity | exact Hmem].
Qed.

Lemma detect_None (text : string) :
  detect text None = detect_heuristic (Str.lower text).
Proof. reflexivity. Qed.

Lemma detect_empty (text : string) :
  detect text (Some ∅) = detect_heuristic (Str.lower text).
Proof.
  unfold detect. now rewrite bool_decide_eq_true_2 by reflexivity.
Qed.

Lemma detect_supplied (text : string) (d : gmap string PyVal) :
  d <> ∅ -> detect text (Some d) = _build_from_user_context d.
Proof.
  intros Hne. unfold detect. now rewrite bool_decide_eq_false_2 by exact Hne.
Qed.

Lemma detect_heuristic_type (text_lower : string) :
  content_type (detect_heuristic text_lower) = fst (_detect_content_type text_lower) /\
  confidence (detect_heuristic text_lower) = snd (_detect_content_type text_lower).
Proof.
  unfold detect_heuristic. destruct (_detect_content_type text_lower). split; reflexivity.
Qed.

End Detection.

(** C8. For every (folded) text, each of the six categories is scored by the
    number of distinct indicator words of the category that occur in the text
    divided by the size of its indicator list; detection returns a category
    whose score no category exceeds, with that score capped at 1.0 as the
    confidence, unless this highest score is below 0.1, in which case it
    returns the unknown type with confidence 0.0.  The detector runs it on the
    lower-cased text. *)
Theorem C8_heuristic_detection {L : Str.Lower} (text : string) :
  ContextDetector.scores text =
    List.map (fun t => (t, match_density t text)) detection_categories /\
  (exists best,
     best ∈ detection_categories /\
     Forall (fun t => (match_density t text <= match_density best text)%Q)
            detection_categories /\
     ContextDetector._detect_content_type text =
       if Float.ltb (match_density best text) Float.c0_1 then (UNKNOWN, 0%Q)
       else (best, Float.min (match_density best text) 1%Q)) /\
  content_type (ContextDetector.detect text None) =
    fst (ContextDetector._detect_content_type (Str.lower text)) /\
  confidence (ContextDetector.detect text None) =
    snd (ContextDetector._detect_content_type (Str.lower text)).
Proof.
  split; [apply scores_eq |]. split; [apply detect_content_type_spec |].
  rewrite detect_None. apply detect_heuristic_type.
Qed.

(** ** C7 and C10: supplied user context *)

Lemma ContentType_of_value_member (t : ContentType) :
  ContentType_of_value (PyStr (ContentType_value t)) = Some t.
Proof. destruct t; reflexivity. Qed.

Lemma ContentType_of_value_Some (v : PyVal) (t : ContentType) :
  ContentType_of_value v = Some t -> v = PyStr (ContentType_value t) \/ v = PyEnum t.
Proof.
  destruct v as [| b | z | s | t']; try discriminate.
  - unfold ContentType_of_value. intros H. left.
    apply List.find_some in H as [_ H]. apply String.eqb_eq in H. now rewrite H.
  - intros [= ->]. now right.
Qed.

(** C7, as stated, fails: an empty mapping is a supplied user context, yet
    the detector scans the text: for a text with four horror indicators it
    reports the horror type with creative license and a confidence other than
    1.0, where the trusted branch would report unknown, no license and 1.0. *)
Lemma C7_empty_user_context_is_scanned :
  let text := "The monster's scream filled the haunted house with terror." in
  let detected := ContextDetector.detect text (Some ∅) in
  let trusted := ContextDetector._build_from_user_context ∅ in
  content_type detected = HORROR /\
  creative_license detected = PyBool true /\
  ~ (confidence detected == 1)%Q /\
  content_type trusted = UNKNOWN /\
  creative_license trusted = PyBool false /\
  confidence trusted = 1%Q /\
  detected <> trusted.
Proof.
  repeat split; try (vm_compute; reflexivity).
  - vm_compute. discriminate.
  - intros H. apply (f_equal content_type) in H. vm_compute in H. discriminate.
Qed.

(** C7, amended. Whenever a non-empty user context is supplied, the detector
    returns the context built from it, whatever the text: its type field is
    parsed against the content-type enumeration (the string of a member or a
    member itself gives that member, absent or unrecognised values give
    unknown), genre, intent and creative_license are carried through
    verbatim, confidence is 1.0, and the creative-license flag of the
    contextual analysis is the supplied one. *)
Theorem C7_user_context_trusted {L : Str.Lower} (text : string) (d : gmap string PyVal) :
  d <> ∅ ->
  let ctx := ContextDetector.detect text (Some d) in
  let type_field := dict_get d "type" (PyStr "unknown") in
  (forall text', ContextDetector.detect text' (Some d) = ctx) /\
  (forall t,
     type_field = PyStr (ContentType_value t) \/ type_field = PyEnum t ->
     content_type ctx = t) /\
  ((forall t, type_field <> PyStr (ContentType_value t) /\ type_field <> PyEnum t) ->
   content_type ctx = UNKNOWN) /\
  genre ctx = dict_get d "genre" PyNone /\
  intent ctx = dict_get d "intent" PyNone /\
  creative_license ctx = dict_get d "creative_license" (PyBool false) /\
  confidence ctx = 1%Q /\
  (forall c text',
     creative_license_respected (contextualize_analysis c text' (Some d)) =
     dict_get d "creative_license" (PyBool false)).
Proof.
  intros Hne ctx type_field.
  assert (Hctx : forall text', ContextDetector.detect text' (Some d) =
                               ContextDetector._build_from_user_context d)
    by (intros text'; apply detect_supplied, Hne).
  unfold ctx. rewrite (Hctx text).
  split; [exact Hctx |].
  split; [| split].
  - intros t Ht. cbn [content_type ContextDetector._build_from_user_context].
    fold type_field. destruct Ht as [-> | ->]; [| reflexivity].
    now rewrite ContentType_of_value_member.
  - intros Hnone. cbn [content_type ContextDetector._build_from_user_context].
    fold type_field.
    destruct (ContentType_of_value type_field) as [t |] eqn:E; [| reflexivity].
    apply ContentType_of_value_Some in E. destruct (Hnone t) as [H1 H2].
    destruct E as [E | E]; [now apply H1 in E | now apply H2 in E].
  - repeat split.
    intros c text'. unfold contextualize_analysis,
      ConsciousnessContextualizer.contextualize_coefficient.
    cbn [creative_license_respected]. now rewrite Hctx.
Qed.

(** The instance of C7 that the specification names: the mapping
    {type: "fiction", creative_license: True} on a text with no fiction
    indicator. *)
Lemma C7_user_context_trusted_witness :
  let d : gmap string PyVal :=
    {[ "type" := PyStr "fiction"; "creative_license" := PyBool true ]} in
  let text := "The violent storm destroyed everything in its path." in
  d <> ∅ /\
  content_type (ContextDetector.detect text None) = UNKNOWN /\
  content_type (ContextDetector.detect text (Some d)) = FICTION /\
  confidence (ContextDetector.detect text (Some d)) = 1%Q /\
  creative_license_respected (contextualize_analysis (1 # 2) text (Some d)) = PyBool true.
Proof.
  intros d text.
  assert (Hne : d <> ∅) by (apply (bool_decide_unpack _); vm_compute; reflexivity).
  destruct (C7_user_context_trusted text d Hne)
    as (_ & Htype & _ & _ & _ & _ & Hconf & Hflag).
  split; [exact Hne |].
  split; [vm_compute; reflexivity |].
  split; [apply (Htype FICTION); left; vm_compute; reflexivity |].
  split; [exact Hconf |].
  rewrite Hflag. vm_compute. reflexivity.
Defined.

(** C10. An empty user-context mapping behaves exactly as no user context:
    the detector runs heuristic detection on the lower-cased text, and the
    contextual analysis and the report of the entry point are the same as
    without a user context. *)
Theorem C10_empty_user_context_is_none {L : Str.Lower}
    (text : string) (c : Q) (include_context : bool) :
  ContextDetector.detect text (Some ∅) = ContextDetector.detect_heuristic (Str.lower text) /\
  ContextDetector.detect text (Some ∅) = ContextDetector.detect text None /\
  contextualize_analysis c text (Some ∅) = contextualize_analysis c text None /\
  get_unity_report text (Some ∅) include_context = get_unity_report text None include_context.
Proof.
  assert (Hd : ContextDetector.detect text (Some ∅) = ContextDetector.detect text None)
    by (rewrite detect_empty, detect_None; reflexivity).
  assert (Hc : forall c', contextualize_analysis c' text (Some ∅) =
                          contextualize_analysis c' text None).
  { intros c'. unfold contextualize_analysis,
      ConsciousnessContextualizer.contextualize_coefficient. now rewrite Hd. }
  split; [apply detect_empty |]. split; [exact Hd |]. split; [apply Hc |].
  destruct include_context.
  - rewrite !get_unity_report_contextual. unfold contextual_report_of. now rewrite Hc.
  - now rewrite !get_unity_report_plain.
Qed.

(** ** C5: the reframing policy *)

Section Policy.

Context {L : Str.Lower}.
Import ConsciousnessContextualizer.
Local Open Scope Q_scope.

Lemma should_suggest_reframing_creative (c : Q) (ctx : ContentContext) :
  truthy (creative_license ctx) = true -> _should_suggest_reframing c ctx = false.
Proof. intros H. unfold _should_suggest_reframing. now rewrite H. Qed.

Lemma should_suggest_reframing_plain (c : Q) (ctx : ContentContext) :
  truthy (creative_license ctx) = false ->
  (_should_suggest_reframing c ctx = true <->
   (is_business_or_technical (content_type ctx) = true /\ c < Float.c0_5) \/
   (is_business_or_technical (content_type ctx) = false /\ c < Float.c0_3)).
Proof.
  intros H. unfold _should_suggest_reframing. rewrite H.
  destruct (is_business_or_technical (content_type ctx)); rewrite ltb_true.
  - split; [auto |]. intros [[_ ?] | [? _]]; [assumption | discriminate].
  - split; [auto |]. intros [[? _] | [_ ?]]; [discriminate | assumption].
Qed.

Lemma detect_never_business (text : string) :
  content_type (ContextDetector.detect text None) <> BUSINESS.
Proof.
  rewrite detect_None.
  destruct (detect_heuristic_type (Str.lower text)) as [-> _].
  destruct (detect_content_type_range (Str.lower text)) as [-> | Hin]; [discriminate |].
  intros Hb. rewrite Hb in Hin. unfold detection_categories in Hin.
  repeat (apply elem_of_cons in Hin as [Hin | Hin]; [discriminate |]).
  inversion Hin.
Qed.

End Policy.

(** C5, as stated, fails in its last part: a business-flavoured text with
    the dominate, competition and enemy markers and coefficient 0.4 is typed
    unknown by the detector, so the 0.3 threshold applies and reframing is
    not deemed appropriate. *)
Lemma C5_business_text_without_suggestion :
  let text := "we can and will dominate the enemy competition" in
  exists report,
    get_unity_report text None true = Ok report /\
    (coefficient report < 1 # 2)%Q /\
    is_Some (separation_hits report !! "dominate") /\
    is_Some (separation_hits report !! "competition") /\
    is_Some (separation_hits report !! "enemy") /\
    let data := contextualize_analysis (coefficient report) text None in
    content_type (context data) = UNKNOWN /\
    creative_license_respected data = PyBool false /\
    reframing_appropriate data = false.
Proof.
  intros text. exists (contextual_report_of text None).
  split; [apply get_unity_report_contextual |].
  split; [vm_compute; reflexivity |].
  repeat split; try (vm_compute; reflexivity); vm_compute; eexists; reflexivity.
Qed.

(** C5, amended. With creative_license false, reframing is appropriate
    exactly when the content type is business or technical and the
    coefficient is below 0.5, or the type is neither and the coefficient is
    below 0.3; with creative_license true it never is.  Heuristic detection
    never yields the business type, so the 0.5 threshold reaches business
    content only through a supplied user context of type "business": then a
    coefficient below 0.5 yields reframing_appropriate true with no
    creative-license flag. *)
Theorem C5_reframing_policy {L : Str.Lower} :
  (forall c ctx,
     truthy (creative_license ctx) = true ->
     ConsciousnessContextualizer._should_suggest_reframing c ctx = false) /\
  (forall c ctx,
     truthy (creative_license ctx) = false ->
     (ConsciousnessContextualizer._should_suggest_reframing c ctx = true <->
      (ConsciousnessContextualizer.is_business_or_technical (content_type ctx) = true /\
       (c < Float.c0_5)%Q) \/
      (ConsciousnessContextualizer.is_business_or_technical (content_type ctx) = false /\
       (c < Float.c0_3)%Q))) /\
  (forall text, content_type (ContextDetector.detect text None) <> BUSINESS) /\
  (forall text c (d : gmap string PyVal),
     dict_get d "type" (PyStr "unknown") = PyStr "business" ->
     truthy (dict_get d "creative_license" (PyBool false)) = false ->
     (c < Float.c0_5)%Q ->
     let data := contextualize_analysis c text (Some d) in
     reframing_appropriate data = true /\
     truthy (creative_license_respected data) = false).
Proof.
  split; [exact should_suggest_reframing_creative |].
  split; [exact should_suggest_reframing_plain |].
  split; [exact detect_never_business |].
  intros text c d Htype Hcl Hc data.
  assert (Hne : d <> ∅).
  { intros ->. vm_compute in Htype. discriminate. }
  unfold data, contextualize_analysis,
    ConsciousnessContextualizer.contextualize_coefficient.
  cbn [reframing_appropriate creative_license_respected].
  rewrite (detect_supplied text d Hne).
  assert (Hct : content_type (ContextDetector._build_from_user_context d) = BUSINESS).
  { cbn [content_type ContextDetector._build_from_user_context]. now rewrite Htype. }
  split.
  - apply should_suggest_reframing_plain; [exact Hcl |]. left. rewrite Hct. split; [reflexivity | exact Hc].
  - exact Hcl.
Qed.

(** An instance of C5: business content declared by the caller, with the
    coefficient 0.4 of the text above. *)
Lemma C5_reframing_policy_witness :
  let d : gmap string PyVal := {[ "type" := PyStr "business" ]} in
  let text := "we can and will dominate the enemy competition" in
  let data := contextualize_analysis (base_coefficient text) text (Some d) in
  (base_coefficient text < Float.c0_5)%Q /\
  reframing_appropriate data = true /\
  truthy (creative_license_respected data) = false.
Proof.
  intros d text data.
  assert (Hc : (base_coefficient text < Float.c0_5)%Q) by (vm_compute; reflexivity).
  split; [exact Hc |].
  destruct C5_reframing_policy as (_ & _ & _ & H).
  apply (H text (base_coefficient text) d); [vm_compute; reflexivity .. | exact Hc].
Defined.

(** ** C9: messages under creative license *)

Section CreativeLicense.

Import ConsciousnessContextualizer.

Lemma contains_prefix (pre s sub : string) :
  Str.contains sub s = true -> Str.contains sub (pre ++ s) = true.
Proof.
  intros H. induction pre as [| c pre IH]; [exact H |].
  change (String c pre ++ s) with (String c (pre ++ s)).
  cbn [Str.contains]. rewrite IH. now destruct (Str.startswith sub _).
Qed.

Lemma interpret_creative (c : Q) (ctx : ContentContext) :
  truthy (creative_license ctx) = true ->
  _interpret_coefficient c ctx =
  "Unity Coefficient: " ++ Float.format_2f c ++
  " (" ++ genre_label (content_type ctx) ++ ")" ++ nl ++ genre_remark (content_type ctx).
Proof.
  intros H. unfold _interpret_coefficient. rewrite H.
  destruct (content_type ctx); reflexivity.
Qed.

Lemma reframing_creative (base : string) (data : ContextData) :
  truthy (creative_license (context data)) = true ->
  _generate_context_aware_reframing base data =
  interpretation data ++ nl ++ nl ++
  "Creative Expression Recognized:" ++ nl ++
  NO_REFRAMING_SENTENCE ++ nl ++
  "The consciousness patterns detected are appropriate for " ++
  ContentType_value (content_type (context data)) ++ " content.".
Proof.
  intros H. unfold _generate_context_aware_reframing. rewrite H. reflexivity.
Qed.

Lemma reframing_creative_affirms (base : string) (data : ContextData) :
  truthy (creative_license (context data)) = true ->
  Str.contains NO_REFRAMING_SENTENCE (_generate_context_aware_reframing base data) = true.
Proof.
  intros H. rewrite (reframing_creative base data H).
  do 5 apply contains_prefix.
  apply StrFacts.contains_startswith, StrFacts.startswith_app.
Qed.

End CreativeLicense.

(** C9, as stated, fails: the interpretation does not name the genre of
    the context.  A fiction text with a horror indicator is detected as
    fiction with genre "horror" and creative license, and a caller can supply
    {type: "fiction", genre: "horror", creative_license: True}; in both cases
    the interpretation reads "Artistic Expression" and mentions horror
    nowhere.  A context of type satire gets the same line. *)
Lemma C9_genre_is_not_named :
  let text := "Chapter one. The narrator tells a story about a ghost." in
  let d : gmap string PyVal :=
    {[ "type" := PyStr "fiction"; "genre" := PyStr "horror";
       "creative_license" := PyBool true ]} in
  let satire : gmap string PyVal :=
    {[ "type" := PyStr "satire"; "creative_license" := PyBool true ]} in
  let artistic_line :=
    "Unity Coefficient: 0.50 (Artistic Expression)" ++ nl ++
    "Creative license recognized. No restrictions applied." in
  let detected := ContextDetector.detect text None in
  let supplied := ContextDetector.detect text (Some d) in
  base_coefficient text = (1 # 2)%Q /\
  content_type detected = FICTION /\
  genre detected = PyStr "horror" /\
  truthy (creative_license detected) = true /\
  interpretation (contextualize_analysis (1 # 2) text None) = artistic_line /\
  content_type supplied = FICTION /\
  genre supplied = PyStr "horror" /\
  truthy (creative_license supplied) = true /\
  interpretation (contextualize_analysis (1 # 2) text (Some d)) = artistic_line /\
  content_type (ContextDetector.detect text (Some satire)) = SATIRE /\
  interpretation (contextualize_analysis (1 # 2) text (Some satire)) = artistic_line /\
  Str.contains "orror" artistic_line = false /\
  Str.contains "atir" artistic_line = false.
Proof.
  repeat split; vm_compute; reflexivity.
Qed.

(** C9, amended. Whenever the context of a text has creative_license true,
    for every coefficient the interpretation is the creative-license template
    selected by the content type of the context, not by its genre field: it
    names horror fiction for the horror type, comedy/satire for the comedy
    type and artistic expression for every other type, and carries the remark
    of that template (low coefficient expected and license respected, comedic
    intent honoured, or no restrictions applied); reframing is not deemed
    appropriate; and the final message of the report is the interpretation
    followed by the affirmation that the artistic vision is respected and no
    reframing is suggested. *)
Theorem C9_creative_license_messages {L : Str.Lower}
    (text : string) (user_context : option (gmap string PyVal)) :
  truthy (creative_license (ContextDetector.detect text user_context)) = true ->
  let ctx := ContextDetector.detect text user_context in
  (forall c,
     let data := contextualize_analysis c text user_context in
     interpretation data =
       "Unity Coefficient: " ++ Float.format_2f c ++
       " (" ++ genre_label (content_type ctx) ++ ")" ++ nl ++
       genre_remark (content_type ctx) /\
     reframing_appropriate data = false /\
     forall base,
       _generate_context_aware_reframing base data =
         interpretation data ++ nl ++ nl ++
         "Creative Expression Recognized:" ++ nl ++
         NO_REFRAMING_SENTENCE ++ nl ++
         "The consciousness patterns detected are appropriate for " ++
         ContentType_value (content_type ctx) ++ " content." /\
       Str.contains NO_REFRAMING_SENTENCE
         (_generate_context_aware_reframing base data) = true) /\
  exists report,
    get_unity_report text user_context true = Ok report /\
    conscious_reframing report =
      _generate_context_aware_reframing (base_reframing text)
        (contextualize_analysis (coefficient report) text user_context) /\
    Str.contains NO_REFRAMING_SENTENCE (conscious_reframing report) = true.
Proof.
  intros Hcl ctx.
  assert (Hdata : forall c,
            context (contextualize_analysis c text user_context) = ctx) by reflexivity.
  split.
  - intros c data. split; [| split].
    + exact (interpret_creative c ctx Hcl).
    + exact (should_suggest_reframing_creative c ctx Hcl).
    + intros base. split.
      * apply (reframing_creative base data). unfold data. rewrite Hdata. exact Hcl.
      * apply reframing_creative_affirms. unfold data. rewrite Hdata. exact Hcl.
  - exists (contextual_report_of text user_context).
    split; [apply get_unity_report_contextual |].
    split; [reflexivity |].
    cbn [conscious_reframing contextual_report_of].
    apply reframing_creative_affirms. rewrite Hdata. exact Hcl.
Qed.

(** An instance of C9: a horror text dense with separation markers. *)
Lemma C9_creative_license_messages_witness :
  let text := "Chapter 1: The Nightmare Begins. The blood-soaked corridor stretched endlessly before her. Sarah's heart pounded with terror as the monster's footsteps echoed closer. Death seemed inevitable. Fear consumed every thought. The nightmare had become reality." in
  truthy (creative_license (ContextDetector.detect text None)) = true /\
  content_type (ContextDetector.detect text None) = HORROR /\
  (base_coefficient text < 1 # 2)%Q /\
  exists report,
    get_unity_report text None true = Ok report /\
    Str.contains NO_REFRAMING_SENTENCE (conscious_reframing report) = true.
Proof.
  intros text.
  assert (Hcl : truthy (creative_license (ContextDetector.detect text None)) = true)
    by (vm_compute; reflexivity).
  split; [exact Hcl |].
  split; [vm_compute; reflexivity |].
  split; [vm_compute; reflexivity |].
  destruct (C9_creative_license_messages text None Hcl) as (_ & report & Hrep & _ & Hmsg).
  exists report. split; [exact Hrep | exact Hmsg].
Defined.

(** ** C1: the context block of the report *)

Lemma getattr_context_info (report : UnityReport) :
  UnityReport_getattr report "context_info" = Raise (AttributeError "context_info").
Proof. reflexivity. Qed.

(** C1, on the code. With include_context false the entry point returns
    the V1 report, whose message is the base message and which has no
    context_info attribute.  With include_context true the contextual
    analysis is computed and enters the final message, but the report that
    is returned has no context_info attribute either: [UnityReport] declares
    no such field and the keyword argument is dropped.  The input of
    [test_context_disabled] is one instance. *)
Theorem C1_context_info_is_dropped {L : Str.Lower}
    (text : string) (user_context : option (gmap string PyVal)) :
  (exists report,
     get_unity_report text user_context false = Ok report /\
     v1_keyword_calculate text = Ok report /\
     conscious_reframing report = base_reframing text /\
     UnityReport_getattr report "context_info" = Raise (AttributeError "context_info")) /\
  (exists report,
     get_unity_report text user_context true = Ok report /\
     conscious_reframing report =
       _generate_context_aware_reframing (base_reframing text)
         (contextualize_analysis (coefficient report) text user_context) /\
     UnityReport_getattr report "context_info" = Raise (AttributeError "context_info")) /\
  (exists report,
     get_unity_report "Some test content with fear and love." None true = Ok report /\
     UnityReport_getattr report "context_info" = Raise (AttributeError "context_info") /\
     UnityReport_getattr report "coefficient" = Ok (AFloat (1 # 2))).
Proof.
  split; [| split].
  - exists (base_report_of text).
    split; [apply get_unity_report_plain |].
    split; [apply v1_keyword_calculate_eq |].
    split; [reflexivity | apply getattr_context_info].
  - exists (contextual_report_of text user_context).
    split; [apply get_unity_report_contextual |].
    split; [reflexivity | apply getattr_context_info].
  - rewrite (get_unity_report_ext (L2 := Str.ascii_Lower)
               "Some test content with fear and love." "Some test content with fear and love."
               (ascii_same_lower "Some test content with fear and love." eq_refl)).
    exists (contextual_report_of (L := Str.ascii_Lower)
              "Some test content with fear and love." None).
    split; [apply get_unity_report_contextual |].
    split; [apply getattr_context_info |].
    vm_compute. reflexivity.
Qed.

(** * Further properties *)

(** ** Occurrences and substrings *)

Module OccurrenceFacts.
Import Str.

Lemma append_cons (c : ascii) (a b : string) : String c a ++ b = String c (a ++ b).
Proof. reflexivity. Qed.

Lemma append_nil_l (s : string) : "" ++ s = s.
Proof. reflexivity. Qed.

Lemma append_assoc (a b c : string) : (a ++ b) ++ c = a ++ b ++ c.
Proof.
  induction a as [| x a IH]; [reflexivity |].
  rewrite !append_cons. now rewrite IH.
Qed.

Lemma length_append (a b : string) :
  String.length (a ++ b) = (String.length a + String.length b)%nat.
Proof.
  induction a as [| x a IH]; [reflexivity |].
  rewrite append_cons. cbn [String.length]. now rewrite IH.
Qed.



Lemma startswith_iff (sub s : string) :
  startswith sub s = true <-> exists post, s = sub ++ post.
Proof.
  split.
  - revert s. induction sub as [| a sub IH]; intros s H.
    + exists s. reflexivity.
    + destruct s as [| b s]; [discriminate |]. cbn [startswith] in H.
      destruct (Ascii.eqb_spec a b) as [-> | _]; [| discriminate].
      destruct (IH s H) as [post ->]. exists post. reflexivity.
  - intros [post ->]. apply StrFacts.startswith_app.
Qed.

(** [sub in s] holds exactly when [s] splits around an occurrence of [sub]. *)
Lemma contains_iff (sub s : string) :
  contains sub s = true <-> exists pre post, s = pre ++ sub ++ post.
Proof.
  split.
  - induction s as [| c s IH]; intros H.
    + cbn [contains] in H. destruct (startswith sub "") eqn:E; [| discriminate].
      apply startswith_iff in E as [post E]. exists "", post. exact E.
    + cbn [contains] in H. destruct (startswith sub (String c s)) eqn:E.
      * apply startswith_iff in E as [post E]. exists "", post. exact E.
      * destruct (IH H) as (pre & post & ->). exists (String c pre), post. reflexivity.
  - intros (pre & post & ->). apply StrFacts.contains_app.
Qed.

Lemma contains_trans (a b s : string) :
  contains a b = true -> contains b s = true -> contains a s = true.
Proof.
  rewrite !contains_iff. intros (p1 & q1 & ->) (p2 & q2 & ->).
  exists (p2 ++ p1), (q1 ++ q2). now rewrite !append_assoc.
Qed.

(** [s.count(sub)] is positive exactly when [sub in s]. *)
Lemma count_pos_iff_contains (s sub : string) :
  (0 < count s sub)%N <-> contains sub s = true.
Proof.
  unfold count. induction s as [| c s IH].
  - cbn [count_scan contains]. destruct sub; cbn [startswith]; split; try lia; discriminate.
  - cbn [count_scan contains].
    destruct (startswith sub (String c s)); [split; [reflexivity | lia] | exact IH].
Qed.



End OccurrenceFacts.




Section HitDicts.

Variable text_lower : string.

Lemma count_markers_is_Some (markers : list string) (m : string) :
  is_Some (count_markers markers text_lower !! m) <->
  m ∈ markers /\ Str.contains m text_lower = true.
Proof.
  rewrite <- OccurrenceFacts.count_pos_iff_contains. split.
  - intros [c Hc]. apply count_markers_spec in Hc as (Hin & -> & Hpos). auto.
  - intros [Hin Hpos]. exists (Str.count text_lower m).
    apply count_markers_spec. auto.
Qed.

Lemma count_markers_cons (x : string) (markers : list string) :
  x ∉ markers ->
  count_markers (x :: markers) text_lower =
  if (0 <? Str.count text_lower x)%N
  then <[x := Str.count text_lower x]> (count_markers markers text_lower)
  else count_markers markers text_lower.
Proof.
  intros Hx. apply map_eq. intros m. rewrite count_markers_lookup.
  destruct (decide (m = x)) as [-> | Hne].
  - rewrite bool_decide_eq_true_2 by left. cbn [andb].
    destruct (0 <? Str.count text_lower x)%N.
    + now rewrite lookup_insert_eq.
    + rewrite count_markers_lookup. now rewrite bool_decide_eq_false_2 by exact Hx.
  - assert (E : bool_decide (m ∈ x :: markers) = bool_decide (m ∈ markers)).
    { apply bool_decide_ext. rewrite elem_of_cons. tauto. }
    rewrite E.
    destruct (0 <? Str.count text_lower x)%N.
    + rewrite lookup_insert_ne by congruence. now rewrite count_markers_lookup.
    + now rewrite count_markers_lookup.
Qed.

Lemma count_markers_fresh (x : string) (markers : list string) :
  x ∉ markers -> count_markers markers text_lower !! x = None.
Proof.
  intros Hx. rewrite count_markers_lookup.
  now rewrite bool_decide_eq_false_2 by exact Hx.
Qed.

Lemma sum_values_NoDup (markers : list string) :
  NoDup markers ->
  sum_values (count_markers markers text_lower) = sum_counts markers text_lower.
Proof.
  induction 1 as [| x markers Hx Hnd IH].
  - apply sum_values_empty.
  - rewrite (count_markers_cons x markers Hx). cbn [sum_counts List.fold_right].
    fold (sum_counts markers text_lower).
    destruct (0 <? Str.count text_lower x)%N eqn:Hc.
    + rewrite sum_values_insert by (apply count_markers_fresh, Hx). rewrite IH. lia.
    + apply N.ltb_ge in Hc. rewrite IH. lia.
Qed.

Lemma sum_values_count_markers (markers : list string) :
  sum_values (count_markers markers text_lower) =
  sum_counts (remove_dups markers) text_lower.
Proof.
  rewrite count_markers_remove_dups. apply sum_values_NoDup, NoDup_remove_dups.
Qed.

End HitDicts.

(** X1. A marker is a key of a hit dict exactly when it belongs to the
    lexicon and occurs as a substring of the lower-cased text; the scanner's
    [count > 0] test and Python's [in] agree. *)
Theorem hit_iff_substring {L : Str.Lower} (text marker : string) :
  (is_Some (separation_hits_of text !! marker) <->
     marker ∈ SEPARATION_MARKERS /\ Str.contains marker (Str.lower text) = true) /\
  (is_Some (unity_hits_of text !! marker) <->
     marker ∈ UNITY_MARKERS /\ Str.contains marker (Str.lower text) = true) /\
  ((0 < Str.count (Str.lower text) marker)%N <->
     Str.contains marker (Str.lower text) = true).
Proof.
  split; [| split].
  - exact (count_markers_is_Some (Str.lower text) SEPARATION_MARKERS marker).
  - exact (count_markers_is_Some (Str.lower text) UNITY_MARKERS marker).
  - apply OccurrenceFacts.count_pos_iff_contains.
Qed.


(** X3. Markers are matched as raw substrings, so a hit of a marker is also
    a hit of every marker (of either lexicon) that it contains. *)
Theorem contained_marker_is_hit {L : Str.Lower}
    (markers1 markers2 : list string) (text m1 m2 : string) :
  m1 ∈ markers1 ->
  Str.contains m1 m2 = true ->
  is_Some (count_markers markers2 (Str.lower text) !! m2) ->
  is_Some (count_markers markers1 (Str.lower text) !! m1).
Proof.
  intros Hin Hsub Hhit. apply count_markers_is_Some in Hhit as [_ Hocc].
  apply count_markers_is_Some. split; [exact Hin |].
  exact (OccurrenceFacts.contains_trans m1 m2 _ Hsub Hocc).
Qed.

(** An instance of X3: "possible" (unity) inside "impossible" (separation). *)
Lemma contained_marker_is_hit_witness :
  "possible" ∈ UNITY_MARKERS /\
  is_Some (separation_hits_of "Nothing is impossible." !! "impossible") /\
  is_Some (unity_hits_of "Nothing is impossible." !! "possible").
Proof.
  assert (Hin : "possible" ∈ UNITY_MARKERS)
    by (apply (bool_decide_unpack _); vm_compute; reflexivity).
  assert (Hhit : is_Some (separation_hits_of "Nothing is impossible." !! "impossible"))
    by (vm_compute; eexists; reflexivity).
  split; [exact Hin |]. split; [exact Hhit |].
  apply (contained_marker_is_hit UNITY_MARKERS SEPARATION_MARKERS
           "Nothing is impossible." "possible" "impossible" Hin);
    [vm_compute; reflexivity | exact Hhit].
Defined.

(** X4. The separation and unity totals are the sums of [str.count] over
    the distinct markers of the lexicon: a marker listed twice is counted
    once. *)
Theorem totals_are_sums_over_distinct_markers {L : Str.Lower} (text : string) :
  sum_values (separation_hits_of text) =
    sum_counts (remove_dups SEPARATION_MARKERS) (Str.lower text) /\
  sum_values (unity_hits_of text) =
    sum_counts (remove_dups UNITY_MARKERS) (Str.lower text).
Proof.
  split; apply sum_values_count_markers.
Qed.



Module RoundingFacts.
Import Float.
Local Open Scope Q_scope.

(** Rounding to the nearest integer moves a number by at most one half. *)
Lemma rne_error (q : Q) : - (1 # 2) <= inject_Z (rne q) - q <= 1 # 2.
Proof.
  pose proof (Qfloor_le q) as Hlo. pose proof (Qlt_floor q) as Hhi.
  rewrite inject_Z_plus in Hhi. change (inject_Z 1) with 1 in Hhi.
  unfold rne. destruct (Qcompare (q - inject_Z (Qfloor q)) (1 # 2)) eqn:E.
  - apply Qeq_alt in E. destruct (Z.even (Qfloor q)).
    + lra.
    + rewrite inject_Z_plus. change (inject_Z 1) with 1. lra.
  - apply Qlt_alt in E. lra.
  - apply Qgt_alt in E. rewrite inject_Z_plus. change (inject_Z 1) with 1. lra.
Qed.

(** A quarter rounds to itself. *)
Lemma b64_pos_quarters (q : Q) (a : Z) :
  0 < q -> q <= 1 -> q == a # 4 -> b64_pos q = Qred (a # 4).
Proof.
  intros Hpos Hle Hq.
  assert (Hge : a # 4 <= b64_pos q) by (apply FloatFacts.b64_pos_ge_quarters; lra).
  assert (Hlt : b64_pos q <= a # 4) by (apply FloatFacts.b64_pos_le_quarters; lra).
  unfold b64_pos in *. apply Qred_complete. rewrite Qred_correct in Hge, Hlt. lra.
Qed.

Lemma b64_quarters (q : Q) (a : Z) :
  0 <= q -> q <= 1 -> q == a # 4 -> b64 q = Qred (a # 4).
Proof.
  intros H0 Hle Hq. unfold b64. destruct (Qcompare q 0) eqn:E.
  - apply Qeq_alt in E. symmetry. change 0 with (Qred 0).
    apply Qred_complete. lra.
  - apply Qlt_alt in E. lra.
  - apply Qgt_alt in E. now apply b64_pos_quarters.
Qed.

(** The quotient of two counts in the ratio a : 4 is the float a/4. *)
Lemma truediv_quarters (u t : N) (a : Z) :
  (0 < t)%N -> (u <= t)%N -> (4 * Z.of_N u = a * Z.of_N t)%Z ->
  truediv u t = Qred (a # 4).
Proof.
  intros Ht Hu Ha. unfold truediv.
  destruct (FloatFacts.quotient_facts u t Ht Hu) as (H0 & H1 & _).
  apply b64_quarters; [exact H0 | exact H1 |].
  assert (HT : 0 < inject_Z (Z.of_N t)) by (unfold Qlt; simpl; lia).
  assert (HZ : 4 * inject_Z (Z.of_N u) == inject_Z a * inject_Z (Z.of_N t)).
  { unfold Qeq, Qmult. cbn [Qnum Qden inject_Z]. lia. }
  assert (Ha4 : a # 4 == inject_Z a / 4) by (unfold Qeq, Qdiv, Qmult, Qinv; simpl; lia).
  rewrite Ha4. field_simplify_eq; [| lra]. lra.
Qed.

(** A float of the unit interval is within 2^-53 of the rational it rounds. *)
Lemma b64_pos_error (q : Q) :
  0 < q -> q <= 1 ->
  - (1 # 9007199254740992) <= b64_pos q - q <= 1 # 9007199254740992.
Proof.
  intros Hpos Hle. unfold b64_pos.
  destruct (FloatFacts.exponent_unit q Hpos Hle) as (p & -> & Hp & _).
  rewrite Qred_correct. cbn [pow2].
  pose proof (rne_error (q / (1 # 2 ^ p))) as Herr.
  set (m := inject_Z (rne (q / (1 # 2 ^ p)))) in *.
  assert (Hs : q / (1 # 2 ^ p) == q * inject_Z (Z.pos (2 ^ p)))
    by (unfold Qdiv, Qinv; simpl; reflexivity).
  rewrite Hs in Herr.
  assert (HP : 4503599627370496 <= inject_Z (Z.pos (2 ^ p))).
  { rewrite Pos2Z.inj_pow. unfold Qle. cbn [Qnum Qden inject_Z].
    rewrite !Z.mul_1_r. change 4503599627370496%Z with (2 ^ 52)%Z.
    apply Z.pow_le_mono_r; lia. }
  assert (Hy : m * (1 # 2 ^ p) * inject_Z (Z.pos (2 ^ p)) == m).
  { unfold Qeq, Qmult. cbn [Qnum Qden inject_Z]. rewrite Pos2Z.inj_mul. lia. }
  set (y := m * (1 # 2 ^ p)) in *.
  set (D := inject_Z (Z.pos (2 ^ p))) in *.
  split; nra.
Qed.

Lemma b64_error (q : Q) :
  0 <= q -> q <= 1 ->
  - (1 # 9007199254740992) <= b64 q - q <= 1 # 9007199254740992.
Proof.
  intros H0 Hle. unfold b64. destruct (Qcompare q 0) eqn:E.
  - apply Qeq_alt in E. lra.
  - apply Qlt_alt in E. lra.
  - apply Qgt_alt in E. now apply b64_pos_error.
Qed.

Lemma round4_bounds (x : Q) :
  0 <= x -> x <= 1 ->
  (0 <= rne (x * inject_Z (10 ^ 4)) <= 10000)%Z /\
  - (1 # 20000) <= inject_Z (rne (x * inject_Z (10 ^ 4))) / inject_Z (10 ^ 4) - x <= 1 # 20000.
Proof.
  intros H0 H1. change (10 ^ 4)%Z with 10000%Z.
  change (inject_Z 10000) with 10000.
  pose proof (rne_error (x * 10000)) as Herr.
  split.
  - split; [apply FloatFacts.rne_ge_Z | apply FloatFacts.rne_le_Z].
    + change (inject_Z 0) with 0. lra.
    + change (inject_Z 10000) with 10000. lra.
  - set (k := inject_Z (rne (x * 10000))) in *.
    assert (E : k / 10000 == k * (1 # 10000)) by (field).
    rewrite E. lra.
Qed.

Lemma ratio_unit (k : Z) :
  (0 <= k <= 10000)%Z ->
  0 <= inject_Z k / inject_Z (10 ^ 4) /\ inject_Z k / inject_Z (10 ^ 4) <= 1.
Proof.
  intros [Hk0 Hk1]. change (10 ^ 4)%Z with 10000%Z.
  split; [apply Qle_shift_div_l | apply Qle_shift_div_r]; try reflexivity;
    unfold Qle, Qmult; cbn [Qnum Qden inject_Z]; lia.
Qed.

(** [round(x, 4)] stays within 0.00005 + 2^-53 of [x]. *)
Lemma round4_error (x : Q) :
  0 <= x -> x <= 1 ->
  - ((1 # 20000) + (1 # 9007199254740992)) <= round x 4 - x <=
  (1 # 20000) + (1 # 9007199254740992).
Proof.
  intros H0 H1. unfold round. change (Z.of_N 4) with 4%Z.
  destruct (round4_bounds x H0 H1) as [[Hk0 Hk1] Herr].
  set (k := rne (x * inject_Z (10 ^ 4))) in *.
  destruct (ratio_unit k (conj Hk0 Hk1)) as [Hy0 Hy1].
  pose proof (b64_error _ Hy0 Hy1) as Hb. lra.
Qed.

(** Rounding to four digits does not cross a quarter downwards or upwards. *)
Lemma round4_ge_quarters (x : Q) (a : Z) :
  (0 < a <= 4)%Z -> 0 <= x -> x <= 1 -> a # 4 <= x -> a # 4 <= round x 4.
Proof.
  intros Ha H0 H1 Hx. unfold round. change (Z.of_N 4) with 4%Z.
  destruct (round4_bounds x H0 H1) as [[Hk0 Hk1] _].
  set (k := rne (x * inject_Z (10 ^ 4))) in *.
  assert (Hk : (2500 * a <= k)%Z).
  { apply FloatFacts.rne_ge_Z. change (10 ^ 4)%Z with 10000%Z.
    change (inject_Z 10000) with 10000.
    assert (E : inject_Z (2500 * a) == (a # 4) * 10000).
    { unfold Qeq, Qmult. cbn [Qnum Qden inject_Z]. lia. }
    rewrite E. lra. }
  assert (Hy : a # 4 <= inject_Z k / inject_Z (10 ^ 4)).
  { apply Qle_shift_div_l; [reflexivity |].
    unfold Qle, Qmult. cbn [Qnum Qden inject_Z]. change (10 ^ 4)%Z with 10000%Z. lia. }
  destruct (ratio_unit k (conj Hk0 Hk1)) as [Hy0 Hy1].
  assert (Hpos : 0 < inject_Z k / inject_Z (10 ^ 4)).
  { assert (0 < a # 4) by (unfold Qlt; simpl; lia). lra. }
  unfold b64. rewrite (proj1 (Qgt_alt _ _) Hpos).
  now apply FloatFacts.b64_pos_ge_quarters.
Qed.

Lemma round4_le_quarters (x : Q) (a : Z) :
  (0 <= a <= 4)%Z -> 0 <= x -> x <= 1 -> x <= a # 4 -> round x 4 <= a # 4.
Proof.
  intros Ha H0 H1 Hx. unfold round. change (Z.of_N 4) with 4%Z.
  destruct (round4_bounds x H0 H1) as [[Hk0 Hk1] _].
  set (k := rne (x * inject_Z (10 ^ 4))) in *.
  assert (Hk : (k <= 2500 * a)%Z).
  { apply FloatFacts.rne_le_Z. change (10 ^ 4)%Z with 10000%Z.
    change (inject_Z 10000) with 10000.
    assert (E : inject_Z (2500 * a) == (a # 4) * 10000).
    { unfold Qeq, Qmult. cbn [Qnum Qden inject_Z]. lia. }
    rewrite E. lra. }
  assert (Hy : inject_Z k / inject_Z (10 ^ 4) <= a # 4).
  { apply Qle_shift_div_r; [reflexivity |].
    unfold Qle, Qmult. cbn [Qnum Qden inject_Z]. change (10 ^ 4)%Z with 10000%Z. lia. }
  destruct (ratio_unit k (conj Hk0 Hk1)) as [Hy0 Hy1].
  assert (Ha0 : 0 <= a # 4) by (unfold Qle; simpl; lia).
  unfold b64. destruct (Qcompare (inject_Z k / inject_Z (10 ^ 4)) 0) eqn:E.
  - exact Ha0.
  - apply Qlt_alt in E. lra.
  - apply Qgt_alt in E. now apply FloatFacts.b64_pos_le_quarters.
Qed.

End RoundingFacts.





Section EngineValues.

Local Open Scope Q_scope.

Lemma raw_of_ratio (sep_hits uni_hits : gmap string N) (a : Z) :
  (0 < sum_values sep_hits + sum_values uni_hits)%N ->
  (4 * Z.of_N (sum_values uni_hits) =
   a * Z.of_N (sum_values sep_hits + sum_values uni_hits))%Z ->
  raw_unity_coefficient sep_hits uni_hits = Qred (a # 4).
Proof.
  intros Hpos Ha. unfold raw_unity_coefficient.
  destruct (N.eqb_spec (sum_values sep_hits + sum_values uni_hits) 0) as [E | _]; [lia |].
  apply RoundingFacts.truediv_quarters; [exact Hpos | lia | exact Ha].
Qed.

Lemma raw_error (sep_hits uni_hits : gmap string N) :
  - (1 # 9007199254740992) <=
    raw_unity_coefficient sep_hits uni_hits - exact_quotient sep_hits uni_hits <=
  1 # 9007199254740992.
Proof.
  unfold raw_unity_coefficient, exact_quotient.
  destruct (N.eqb_spec (sum_values sep_hits + sum_values uni_hits) 0) as [E | E].
  - change Float.c0_5 with (1 # 2). lra.
  - unfold Float.truediv.
    destruct (FloatFacts.quotient_facts (sum_values uni_hits)
                (sum_values sep_hits + sum_values uni_hits)) as (H0 & H1 & _); [lia .. |].
    now apply RoundingFacts.b64_error.
Qed.

Lemma interpret_plain (c : Q) (ctx : ContentContext) :
  truthy (creative_license ctx) = false ->
  ConsciousnessContextualizer._interpret_coefficient c ctx =
  if Float.geb c Float.c0_75 then high_line c
  else if Float.geb c Float.c0_5 then balanced_line c
  else separation_line c.
Proof.
  intros H. unfold ConsciousnessContextualizer._interpret_coefficient. now rewrite H.
Qed.

End EngineValues.

(** X5. Exact coefficients at the simple ratios: unity hits only give
    exactly 1.0 and the high-unity message, separation hits only give exactly
    0.0 and the separation message, equal totals give exactly 0.5 and the
    balanced message, and three unity hits per separation hit give exactly
    0.75 and the high-unity message. *)
Theorem exact_coefficients (sep_hits uni_hits : gmap string N) :
  let s := sum_values sep_hits in
  let u := sum_values uni_hits in
  exists report,
    report_of_hits sep_hits uni_hits = Ok report /\
    ((0 < u)%N /\ s = 0%N ->
       coefficient report = 1%Q /\ conscious_reframing report = HIGH_UNITY_MESSAGE) /\
    (u = 0%N /\ (0 < s)%N ->
       coefficient report = 0%Q /\ conscious_reframing report = SEPARATION_MESSAGE) /\
    (u = s /\ (0 < s)%N ->
       coefficient report = (1 # 2)%Q /\ conscious_reframing report = BALANCED_MESSAGE) /\
    (u = (3 * s)%N /\ (0 < s)%N ->
       coefficient report = (3 # 4)%Q /\ conscious_reframing report = HIGH_UNITY_MESSAGE).
Proof.
  intros s u. eexists. split; [apply report_of_hits_eq |].
  cbn [coefficient conscious_reframing].
  split; [| split; [| split]]; intros [H1 H2].
  - rewrite (raw_of_ratio sep_hits uni_hits 4) by (fold s u; lia).
    split; vm_compute; reflexivity.
  - rewrite (raw_of_ratio sep_hits uni_hits 0) by (fold s u; lia).
    split; vm_compute; reflexivity.
  - rewrite (raw_of_ratio sep_hits uni_hits 2) by (fold s u; lia).
    split; vm_compute; reflexivity.
  - rewrite (raw_of_ratio sep_hits uni_hits 3) by (fold s u; lia).
    split; vm_compute; reflexivity.
Qed.

(** An instance of X5: three unity hits and no separation hit. *)
Lemma exact_coefficients_witness :
  exists report,
    report_of_hits ∅ {[ "love" := 3%N ]} = Ok report /\
    coefficient report = 1%Q /\ conscious_reframing report = HIGH_UNITY_MESSAGE.
Proof.
  destruct (exact_coefficients ∅ {[ "love" := 3%N ]}) as (report & Hrep & Hunity & _).
  exists report. split; [exact Hrep |].
  apply Hunity. rewrite sum_values_singleton, sum_values_empty. split; [lia | reflexivity].
Defined.

(** X6. The reported coefficient is within 0.00005 + 2^-52 of the exact
    quotient unity_count / total of the totals (of 0.5 when both are zero). *)
Theorem coefficient_accuracy (sep_hits uni_hits : gmap string N) :
  exists report,
    report_of_hits sep_hits uni_hits = Ok report /\
    (Qabs (coefficient report - exact_quotient sep_hits uni_hits) <=
     (1 # 20000) + (1 # 4503599627370496))%Q.
Proof.
  eexists. split; [apply report_of_hits_eq |]. cbn [coefficient].
  pose proof (raw_unity_coefficient_unit sep_hits uni_hits) as [H0 H1].
  pose proof (RoundingFacts.round4_error _ H0 H1) as Hr.
  pose proof (raw_error sep_hits uni_hits) as He.
  apply Qabs_Qle_condition. split; lra.
Qed.

(** X7. For content without creative license the band named by the
    interpretation line (computed from the rounded coefficient) is the band of
    the base message (computed before rounding) or the next higher one, never
    a lower one. *)
Theorem interpretation_band_not_below_message
    (sep_hits uni_hits : gmap string N) (ctx : ContentContext) :
  truthy (creative_license ctx) = false ->
  let raw := raw_unity_coefficient sep_hits uni_hits in
  let c := Float.round raw 4 in
  let line := ConsciousnessContextualizer._interpret_coefficient c ctx in
  (reframing_of raw = HIGH_UNITY_MESSAGE -> line = high_line c) /\
  (reframing_of raw = BALANCED_MESSAGE -> line = balanced_line c \/ line = high_line c) /\
  (reframing_of raw = SEPARATION_MESSAGE ->
     line = separation_line c \/ line = balanced_line c).
Proof.
  intros Hcl raw c line.
  pose proof (raw_unity_coefficient_unit sep_hits uni_hits) as [H0 H1]. fold raw in H0, H1.
  unfold line. rewrite (interpret_plain c ctx Hcl).
  split; [| split].
  - intros Hm. apply reframing_of_high in Hm.
    assert (Hc : (3 # 4 <= c)%Q) by (apply RoundingFacts.round4_ge_quarters; [lia | lra ..]).
    apply geb_true in Hc. change (3 # 4)%Q with Float.c0_75 in Hc. now rewrite Hc.
  - intros Hm. apply reframing_of_balanced in Hm as [Hlo _].
    assert (Hc : (2 # 4 <= c)%Q) by (apply RoundingFacts.round4_ge_quarters; [lia | lra ..]).
    assert (Hc' : Float.geb c Float.c0_5 = true)
      by (apply geb_true; change Float.c0_5 with (1 # 2)%Q; lra).
    rewrite Hc'. destruct (Float.geb c Float.c0_75); auto.
  - intros Hm. apply reframing_of_separation in Hm.
    assert (Hc : (c <= 2 # 4)%Q) by (apply RoundingFacts.round4_le_quarters; [lia | lra ..]).
    assert (Hc' : Float.geb c Float.c0_75 = false).
    { destruct (Float.geb c Float.c0_75) eqn:E; [| reflexivity].
      apply geb_true in E. change Float.c0_75 with (3 # 4)%Q in E. lra. }
    rewrite Hc'. destruct (Float.geb c Float.c0_5); auto.
Qed.

(** An instance of X7 where the interpretation is one band above the
    message: 3752 unity hits against 1251 separation hits. *)
Lemma interpretation_band_not_below_message_witness :
  let sep_hits : gmap string N := {[ "fear" := 1251%N ]} in
  let uni_hits : gmap string N := {[ "love" := 3752%N ]} in
  let ctx := ContextDetector.detect "love fear" None in
  let raw := raw_unity_coefficient sep_hits uni_hits in
  truthy (creative_license ctx) = false /\
  reframing_of raw = BALANCED_MESSAGE /\
  ConsciousnessContextualizer._interpret_coefficient (Float.round raw 4) ctx =
    "Unity Coefficient: 0.75 - High unity alignment".
Proof.
  intros sep_hits uni_hits ctx raw.
  assert (Hcl : truthy (creative_license ctx) = false) by (vm_compute; reflexivity).
  assert (Hm : reframing_of raw = BALANCED_MESSAGE) by (vm_compute; reflexivity).
  split; [exact Hcl |]. split; [exact Hm |].
  destruct (interpretation_band_not_below_message sep_hits uni_hits ctx Hcl)
    as (_ & Hb & _).
  destruct (Hb Hm) as [H | H].
  - exfalso. vm_compute in H. discriminate.
  - etransitivity; [exact H |]. vm_compute. reflexivity.
Defined.




Section DetectionInvariants.

Import ContextDetector.
Local Open Scope Q_scope.

Lemma present_le_size (t : ContentType) (text : string) :
  (size (present_indicators t text) <= List.length (indicators_of t))%nat.
Proof.
  unfold present_indicators. rewrite size_list_to_set.
  - apply List.filter_length_le.
  - apply NoDup_ListNoDup, List.NoDup_filter, NoDup_ListNoDup, indicators_NoDup.
Qed.

Lemma match_density_unit (t : ContentType) (text : string) :
  0 <= match_density t text <= 1.
Proof.
  apply FloatFacts.truediv_unit. pose proof (present_le_size t text). lia.
Qed.

(** With lists of 10 to 13 words, a score is below the float 0.1 exactly
    when ten times the matches are fewer than the list size. *)
Lemma floor_table :
  Forall (fun n =>
    Forall (fun k =>
      Float.ltb (Float.truediv (N.of_nat k) (N.of_nat n)) Float.c0_1 =
      (10 * k <? n)%nat) (seq 0 (S n))) [10; 11; 12; 13]%nat.
Proof.
  apply (bool_decide_unpack _). vm_compute. reflexivity.
Qed.

Lemma category_size (t : ContentType) :
  t ∈ detection_categories -> List.length (indicators_of t) ∈ [10; 11; 12; 13]%nat.
Proof.
  intros Hin. unfold detection_categories in Hin.
  repeat (apply elem_of_cons in Hin as [-> | Hin];
          [cbn; repeat (first [left; reflexivity | right]) |]).
  inversion Hin.
Qed.

Lemma density_below_floor (t : ContentType) (text : string) :
  t ∈ detection_categories ->
  (Float.ltb (match_density t text) Float.c0_1 = true <->
   (10 * size (present_indicators t text) < List.length (indicators_of t))%nat).
Proof.
  intros Hin. unfold match_density.
  pose proof (present_le_size t text) as Hle.
  pose proof floor_table as Htab. rewrite Forall_forall in Htab.
  specialize (Htab _ (category_size t Hin)). rewrite Forall_forall in Htab.
  rewrite (Htab (size (present_indicators t text))).
  - apply Nat.ltb_lt.
  - apply list_elem_of_In, List.in_seq. lia.
Qed.

Lemma category_not_unknown (t : ContentType) : t ∈ detection_categories -> t <> UNKNOWN.
Proof.
  intros Hin ->. unfold detection_categories in Hin.
  repeat (apply elem_of_cons in Hin as [Hin | Hin]; [discriminate |]).
  inversion Hin.
Qed.

Lemma min_unit (a : Q) : a <= 1 -> Float.min a 1 = a.
Proof.
  intros H. unfold Float.min.
  destruct (Float.ltb 1 a) eqn:E; [| reflexivity]. apply ltb_true in E. lra.
Qed.

(** The two outcomes of heuristic type detection. *)
Lemma detect_content_type_cases (text : string) :
  (_detect_content_type text = (UNKNOWN, 0) /\
   Forall (fun t => match_density t text < Float.c0_1) detection_categories) \/
  (exists best,
     best ∈ detection_categories /\
     Float.c0_1 <= match_density best text /\
     Forall (fun t => match_density t text <= match_density best text) detection_categories /\
     _detect_content_type text = (best, match_density best text)).
Proof.
  destruct (detect_content_type_spec text) as (best & Hmem & Hmax & Heq).
  destruct (Float.ltb (match_density best text) Float.c0_1) eqn:E.
  - left. split; [exact Heq |]. apply ltb_true in E.
    rewrite Forall_forall in Hmax. apply Forall_forall. intros t Ht.
    specialize (Hmax t Ht). lra.
  - right. exists best. apply ltb_false in E.
    rewrite min_unit in Heq by apply match_density_unit. auto.
Qed.

Lemma has_creative_license_detected (text : string) (t : ContentType) :
  _has_creative_license t (_detect_genre text t) = is_creative_type t.
Proof.
  unfold _has_creative_license, _detect_genre.
  destruct t; cbn [is_fiction_or_artistic is_creative_type orb]; try reflexivity.
Qed.

End DetectionInvariants.

(** X8. Confidence of a detected context: it lies in [0, 1]; the type is
    unknown exactly when the confidence is 0.0; and a detected category comes
    with its match density as confidence, at least 0.1 and not exceeded by the
    density of any other category. *)
Theorem detected_confidence {L : Str.Lower} (text : string) :
  let ctx := ContextDetector.detect text None in
  (0 <= confidence ctx <= 1)%Q /\
  (content_type ctx = UNKNOWN <-> confidence ctx = 0%Q) /\
  (content_type ctx = UNKNOWN \/
   content_type ctx ∈ detection_categories /\
   confidence ctx = match_density (content_type ctx) (Str.lower text) /\
   (Float.c0_1 <= confidence ctx)%Q /\
   Forall (fun t => (match_density t (Str.lower text) <= confidence ctx)%Q)
          detection_categories).
Proof.
  intros ctx. unfold ctx. rewrite detect_None.
  destruct (detect_heuristic_type (Str.lower text)) as [-> ->].
  destruct (detect_content_type_cases (Str.lower text))
    as [[-> _] | (best & Hmem & Hfloor & Hmax & ->)]; cbn [fst snd].
  - split; [split; discriminate |]. split; [tauto | left; reflexivity].
  - pose proof (match_density_unit best (Str.lower text)) as Hunit.
    change Float.c0_1 with (3602879701896397 # 36028797018963968)%Q in Hfloor.
    split; [exact Hunit |]. split.
    + split.
      * intros E. now apply category_not_unknown in Hmem.
      * intros E. rewrite E in Hfloor. exfalso. revert Hfloor. vm_compute. tauto.
    + right. auto.
Qed.

(** X9. What heuristic detection can return: the type is unknown or one of
    the six scored categories; creative license holds exactly for fiction,
    horror, comedy and artistic; a genre is set only for fiction and artistic
    and is then "horror" or "comedy"; audience and metadata stay empty. *)
Theorem detected_context_shape {L : Str.Lower} (text : string) :
  let ctx := ContextDetector.detect text None in
  (content_type ctx = UNKNOWN \/ content_type ctx ∈ detection_categories) /\
  creative_license ctx = PyBool (ContextDetector.is_creative_type (content_type ctx)) /\
  (genre ctx = PyNone \/
   ContextDetector.is_fiction_or_artistic (content_type ctx) = true /\
   (genre ctx = PyStr "horror" \/ genre ctx = PyStr "comedy")) /\
  intent ctx = ContextDetector._detect_intent (Str.lower text) (content_type ctx) /\
  audience ctx = PyNone /\ metadata ctx = ∅.
Proof.
  intros ctx. unfold ctx. rewrite detect_None.
  pose proof (detect_content_type_range (Str.lower text)) as Hrange.
  unfold ContextDetector.detect_heuristic.
  destruct (ContextDetector._detect_content_type (Str.lower text)) as [t conf].
  cbn [fst] in Hrange.
  cbn [content_type creative_license genre intent audience metadata].
  split; [exact Hrange |].
  split; [now rewrite has_creative_license_detected |].
  split; [| auto].
  unfold ContextDetector._detect_genre.
  destruct (ContextDetector.is_fiction_or_artistic t); [| left; reflexivity].
  destruct (List.existsb _ _); [right; auto |].
  destruct (List.existsb _ _); [right; auto | left; reflexivity].
Qed.

(** X10. Detection returns unknown exactly when, for every category, ten
    times the number of its indicator words present in the text is smaller
    than the size of its list: one academic or artistic word (lists of 10)
    is enough to be detected, one fiction, horror, comedy or technical word
    (lists of 11 to 13) is not. *)
Theorem unknown_iff_too_few_indicators {L : Str.Lower} (text : string) :
  content_type (ContextDetector.detect text None) = UNKNOWN <->
  Forall (fun t =>
            (10 * size (present_indicators t (Str.lower text)) <
             List.length (indicators_of t))%nat)
         detection_categories.
Proof.
  rewrite detect_None.
  destruct (detect_heuristic_type (Str.lower text)) as [-> _].
  destruct (detect_content_type_cases (Str.lower text))
    as [[-> Hall] | (best & Hmem & Hfloor & _ & ->)]; cbn [fst].
  - split; [intros _ | reflexivity].
    rewrite Forall_forall in Hall. apply Forall_forall. intros t Ht.
    apply density_below_floor; [exact Ht |]. apply ltb_true, Hall, Ht.
  - split.
    + intros E. now apply category_not_unknown in Hmem.
    + intros Hall. rewrite Forall_forall in Hall. specialize (Hall best Hmem).
      apply density_below_floor in Hall; [| exact Hmem].
      apply ltb_true in Hall. lra.
Qed.




Section Messages.

Import ConsciousnessContextualizer.

Lemma notes_tip_iff (c : Q) (ctx : ContentContext) :
  In EXPLICIT_CONTEXT_TIP (_generate_contextual_notes c ctx) <->
  (confidence ctx < Float.c0_5)%Q.
Proof.
  rewrite <- ltb_true. unfold _generate_contextual_notes.
  destruct (Float.ltb (confidence ctx) Float.c0_5).
  - split; [reflexivity | intros _].
    apply List.in_or_app. right. right. left. reflexivity.
  - split; [| discriminate]. intros H. exfalso.
    destruct (truthy (creative_license ctx)).
    + destruct (content_type ctx); cbn in H; intuition discriminate.
    + destruct (Float.ltb c Float.c0_5); [cbn in H; intuition discriminate |].
      destruct (Float.geb c Float.c0_75); cbn in H; intuition discriminate.
Qed.

Lemma interpretation_prefix (c : Q) (ctx : ContentContext) :
  exists tail,
    _interpret_coefficient c ctx = "Unity Coefficient: " ++ Float.format_2f c ++ tail.
Proof.
  unfold _interpret_coefficient.
  destruct (truthy (creative_license ctx)).
  - destruct (content_type ctx); eexists; reflexivity.
  - destruct (Float.geb c Float.c0_75); [eexists; reflexivity |].
    destruct (Float.geb c Float.c0_5); eexists; reflexivity.
Qed.

Lemma reframing_starts_with_interpretation (base : string) (data : ContextData) :
  exists rest,
    _generate_context_aware_reframing base data = interpretation data ++ nl ++ nl ++ rest.
Proof.
  unfold _generate_context_aware_reframing.
  destruct (truthy (creative_license (context data))); [eexists; reflexivity |].
  destruct (reframing_appropriate data); eexists; reflexivity.
Qed.

Lemma reframing_with_suggestion (base : string) (data : ContextData) :
  truthy (creative_license (context data)) = false ->
  reframing_appropriate data = true ->
  _generate_context_aware_reframing base data =
  interpretation data ++ nl ++ nl ++ "Observation: " ++ base ++ nl ++ nl ++
  "Note: This is informational only. You have complete sovereignty " ++
  "over your expression. Alternative framings are available if desired.".
Proof.
  intros Hcl Hre. unfold _generate_context_aware_reframing. now rewrite Hcl, Hre.
Qed.

Lemma reframing_without_suggestion (base : string) (data : ContextData) :
  truthy (creative_license (context data)) = false ->
  reframing_appropriate data = false ->
  _generate_context_aware_reframing base data = interpretation data ++ nl ++ nl ++ base.
Proof.
  intros Hcl Hre. unfold _generate_context_aware_reframing. now rewrite Hcl, Hre.
Qed.

Lemma contains_suffix (s sub : string) : Str.contains sub (s ++ sub) = true.
Proof.
  rewrite OccurrenceFacts.contains_iff. exists s, "".
  f_equal. induction sub as [| c sub IH]; [reflexivity |].
  rewrite OccurrenceFacts.append_cons. now rewrite <- IH.
Qed.

Lemma reframing_plain_keeps_base (base : string) (data : ContextData) :
  truthy (creative_license (context data)) = false ->
  Str.contains base (_generate_context_aware_reframing base data) = true.
Proof.
  intros Hcl. destruct (reframing_appropriate data) eqn:Hre.
  - rewrite (reframing_with_suggestion base data Hcl Hre).
    do 4 apply contains_prefix.
    apply StrFacts.contains_startswith, StrFacts.startswith_app.
  - rewrite (reframing_without_suggestion base data Hcl Hre).
    do 2 apply contains_prefix. rewrite <- (OccurrenceFacts.append_nil_l base) at 2.
    apply contains_suffix.
Qed.

Lemma reframing_suggestion_sovereignty (base : string) (data : ContextData) :
  truthy (creative_license (context data)) = false ->
  reframing_appropriate data = true ->
  Str.contains SOVEREIGNTY_SENTENCE (_generate_context_aware_reframing base data) = true.
Proof.
  intros Hcl Hre. rewrite (reframing_with_suggestion base data Hcl Hre).
  do 7 apply contains_prefix.
  rewrite OccurrenceFacts.contains_iff.
  exists "Note: This is informational only. ",
         " Alternative framings are available if desired.".
  reflexivity.
Qed.

End Messages.




Section Formatting.

Local Open Scope Q_scope.

Lemma hundredths_table :
  Forall (fun n =>
            String.length (hundredths_text (Z.of_nat n)) = 4%nat /\
            (hundredths_text (Z.of_nat n) = "1.00" \/
             Str.startswith "0." (hundredths_text (Z.of_nat n)) = true))
         (seq 0 101).
Proof.
  apply (bool_decide_unpack _). vm_compute. reflexivity.
Qed.

Lemma format_2f_unit (x : Q) :
  0 <= x -> x <= 1 ->
  exists k, (0 <= k <= 100)%Z /\ Float.format_2f x = hundredths_text k.
Proof.
  intros H0 H1. exists (Float.rne (Qabs x * 100)). split.
  - pose proof (Qabs_nonneg x) as Ha0.
    assert (Ha1 : Qabs x <= 1) by (apply Qabs_Qle_condition; lra).
    split; [apply FloatFacts.rne_ge_Z | apply FloatFacts.rne_le_Z].
    + change (inject_Z 0) with 0. lra.
    + change (inject_Z 100) with 100. lra.
  - unfold Float.format_2f, hundredths_text.
    rewrite (proj2 (Qle_bool_iff 0 x) H0). reflexivity.
Qed.

End Formatting.

(** X11. A coefficient of the unit interval is printed by the
    interpretation with one digit before and two after the point: the text
    has four characters and is "1.00" or starts with "0.". *)
Theorem coefficient_text_shape (x : Q) :
  (0 <= x)%Q -> (x <= 1)%Q ->
  String.length (Float.format_2f x) = 4%nat /\
  (Float.format_2f x = "1.00" \/ Str.startswith "0." (Float.format_2f x) = true).
Proof.
  intros H0 H1. destruct (format_2f_unit x H0 H1) as (k & Hk & ->).
  pose proof hundredths_table as Htab. rewrite Forall_forall in Htab.
  specialize (Htab (Z.to_nat k)). rewrite Z2Nat.id in Htab by lia.
  apply Htab. apply list_elem_of_In, List.in_seq. lia.
Qed.

Lemma coefficient_text_shape_witness :
  (0 <= 3 # 4)%Q /\ (3 # 4 <= 1)%Q /\
  Float.format_2f (3 # 4) = "0.75" /\ String.length (Float.format_2f (3 # 4)) = 4%nat.
Proof.
  assert (H0 : (0 <= 3 # 4)%Q) by (vm_compute; discriminate).
  assert (H1 : (3 # 4 <= 1)%Q) by (vm_compute; discriminate).
  split; [exact H0 |]. split; [exact H1 |]. split; [vm_compute; reflexivity |].
  exact (proj1 (coefficient_text_shape (3 # 4) H0 H1)).
Defined.

(** X12. The tip to provide explicit context is among the notes exactly
    when the confidence of the context is below 0.5: never for a context
    built from a user-supplied mapping, always when detection returned
    unknown. *)
Theorem tip_iff_low_confidence {L : Str.Lower} :
  (forall c ctx,
     In EXPLICIT_CONTEXT_TIP (ConsciousnessContextualizer._generate_contextual_notes c ctx) <->
     (confidence ctx < Float.c0_5)%Q) /\
  (forall c d,
     ~ In EXPLICIT_CONTEXT_TIP
         (ConsciousnessContextualizer._generate_contextual_notes c
            (ContextDetector._build_from_user_context d))) /\
  (forall c text,
     content_type (ContextDetector.detect text None) = UNKNOWN ->
     In EXPLICIT_CONTEXT_TIP (notes (contextualize_analysis c text None))).
Proof.
  split; [exact notes_tip_iff |]. split.
  - intros c d H. apply notes_tip_iff in H.
    cbn [confidence ContextDetector._build_from_user_context] in H.
    revert H. vm_compute. discriminate.
  - intros c text Hunk. unfold contextualize_analysis,
      ConsciousnessContextualizer.contextualize_coefficient. cbn [notes].
    apply notes_tip_iff.
    rewrite detect_None in *.
    destruct (detect_heuristic_type (Str.lower text)) as [Ht Hc].
    rewrite Ht in Hunk. rewrite Hc.
    destruct (detect_content_type_cases (Str.lower text))
      as [[E _] | (best & Hmem & _ & _ & E)]; rewrite E in *; cbn [fst snd] in *.
    + reflexivity.
    + now apply category_not_unknown in Hmem.
Qed.

Lemma tip_iff_low_confidence_witness :
  content_type (ContextDetector.detect "The quick brown fox jumps over the lazy dog." None) =
    UNKNOWN /\
  In EXPLICIT_CONTEXT_TIP
     (notes (contextualize_analysis (1 # 2)
               "The quick brown fox jumps over the lazy dog." None)).
Proof.
  assert (Hunk : content_type (ContextDetector.detect
                   "The quick brown fox jumps over the lazy dog." None) = UNKNOWN)
    by (vm_compute; reflexivity).
  split; [exact Hunk |].
  destruct tip_iff_low_confidence as (_ & _ & H). apply H. exact Hunk.
Defined.

(** X13. In the trusted branch creative license comes from the supplied
    flag alone: a non-empty user context without a creative_license entry is
    never creative, whatever type or genre it names, so reframing follows the
    numeric thresholds of its type. *)
Theorem supplied_context_without_flag {L : Str.Lower}
    (text : string) (d : gmap string PyVal) (c : Q) :
  d <> ∅ -> d !! "creative_license" = None ->
  let data := contextualize_analysis c text (Some d) in
  creative_license_respected data = PyBool false /\
  reframing_appropriate data =
    (if ConsciousnessContextualizer.is_business_or_technical (content_type (context data))
     then Float.ltb c Float.c0_5 else Float.ltb c Float.c0_3) /\
  exists rest,
    interpretation data = "Unity Coefficient: " ++ Float.format_2f c ++ " - " ++ rest.
Proof.
  intros Hne Hflag data. unfold data, contextualize_analysis,
    ConsciousnessContextualizer.contextualize_coefficient.
  cbn [creative_license_respected reframing_appropriate context interpretation].
  rewrite (detect_supplied text d Hne).
  assert (Hcl : creative_license (ContextDetector._build_from_user_context d) = PyBool false).
  { cbn [creative_license ContextDetector._build_from_user_context].
    unfold dict_get. now rewrite Hflag. }
  split; [exact Hcl |]. split.
  - unfold ConsciousnessContextualizer._should_suggest_reframing. now rewrite Hcl.
  - rewrite interpret_plain by (now rewrite Hcl).
    destruct (Float.geb c Float.c0_75); [eexists; reflexivity |].
    destruct (Float.geb c Float.c0_5); eexists; reflexivity.
Qed.

(** An instance of X13: a horror text declared as {type: "horror"} without
    the flag is not treated as creative, while detection alone grants the
    license. *)
Lemma supplied_context_without_flag_witness :
  let text := "The monster's scream filled the haunted house with terror." in
  let d : gmap string PyVal := {[ "type" := PyStr "horror" ]} in
  creative_license (ContextDetector.detect text None) = PyBool true /\
  content_type (ContextDetector.detect text (Some d)) = HORROR /\
  creative_license_respected (contextualize_analysis (1 # 4) text (Some d)) = PyBool false /\
  reframing_appropriate (contextualize_analysis (1 # 4) text (Some d)) = true.
Proof.
  intros text d.
  assert (Hne : d <> ∅) by (apply (bool_decide_unpack _); vm_compute; reflexivity).
  assert (Hflag : d !! "creative_license" = None) by (vm_compute; reflexivity).
  destruct (supplied_context_without_flag text d (1 # 4) Hne Hflag) as (H1 & H2 & _).
  split; [vm_compute; reflexivity |]. split; [vm_compute; reflexivity |].
  split; [exact H1 |]. rewrite H2. vm_compute. reflexivity.
Defined.

(** X14. The whole analysis is case-insensitive: two texts with the same
    lower-cased form get the same report, with or without context analysis
    and for any user context. *)
Theorem analysis_is_case_insensitive {L : Str.Lower}
    (text1 text2 : string) (user_context : option (gmap string PyVal))
    (include_context : bool) :
  Str.lower text1 = Str.lower text2 ->
  get_unity_report text1 user_context include_context =
  get_unity_report text2 user_context include_context /\
  contextualize_analysis (base_coefficient text1) text1 user_context =
  contextualize_analysis (base_coefficient text2) text2 user_context.
Proof.
  intros Hlow.
  assert (Hs : separation_hits_of text1 = separation_hits_of text2)
    by (unfold separation_hits_of; now rewrite Hlow).
  assert (Hu : unity_hits_of text1 = unity_hits_of text2)
    by (unfold unity_hits_of; now rewrite Hlow).
  assert (Hc : base_coefficient text1 = base_coefficient text2)
    by (unfold base_coefficient; now rewrite Hs, Hu).
  assert (Hr : base_reframing text1 = base_reframing text2)
    by (unfold base_reframing; now rewrite Hs, Hu).
  assert (Hd : ContextDetector.detect text1 user_context =
               ContextDetector.detect text2 user_context)
    by (unfold ContextDetector.detect; now rewrite Hlow).
  assert (Ha : forall c, contextualize_analysis c text1 user_context =
                         contextualize_analysis c text2 user_context).
  { intros c. unfold contextualize_analysis,
      ConsciousnessContextualizer.contextualize_coefficient. now rewrite Hd. }
  split.
  - destruct include_context.
    + rewrite !get_unity_report_contextual. unfold contextual_report_of.
      now rewrite Hs, Hu, Hc, Hr, Ha.
    + rewrite !get_unity_report_plain. unfold base_report_of.
      now rewrite Hs, Hu, Hc, Hr.
  - now rewrite Hc, Ha.
Qed.

Lemma analysis_is_case_insensitive_witness :
  Str.lower "Chapter ONE: Love and FEAR" = Str.lower "chapter one: LOVE and fear" /\
  get_unity_report "Chapter ONE: Love and FEAR" None true =
  get_unity_report "chapter one: LOVE and fear" None true.
Proof.
  assert (H : Str.lower "Chapter ONE: Love and FEAR" = Str.lower "chapter one: LOVE and fear")
    by (vm_compute; reflexivity).
  split; [exact H |].
  exact (proj1 (analysis_is_case_insensitive _ _ None true H)).
Defined.

(** X15. The final message of a contextual report always opens with the
    interpretation, which itself opens with "Unity Coefficient: " and the
    coefficient printed with two decimals; without creative license it still
    contains the base message, and when reframing is deemed appropriate it
    contains the sovereignty sentence. *)
Theorem contextual_message_structure {L : Str.Lower}
    (text : string) (user_context : option (gmap string PyVal)) :
  exists report,
    get_unity_report text user_context true = Ok report /\
    let data := contextualize_analysis (coefficient report) text user_context in
    let message := conscious_reframing report in
    Str.startswith (interpretation data ++ nl ++ nl) message = true /\
    Str.startswith ("Unity Coefficient: " ++ Float.format_2f (coefficient report))
                   message = true /\
    (truthy (creative_license_respected data) = false ->
       Str.contains (base_reframing text) message = true) /\
    (truthy (creative_license_respected data) = false ->
       reframing_appropriate data = true ->
       Str.contains SOVEREIGNTY_SENTENCE message = true).
Proof.
  exists (contextual_report_of text user_context).
  split; [apply get_unity_report_contextual |].
  cbn [coefficient conscious_reframing contextual_report_of].
  set (data := contextualize_analysis (base_coefficient text) text user_context).
  cbv zeta.
  destruct (reframing_starts_with_interpretation (base_reframing text) data) as [rest Hrest].
  split; [| split; [| split]].
  - rewrite Hrest. rewrite <- !OccurrenceFacts.append_assoc.
    apply StrFacts.startswith_app.
  - rewrite Hrest.
    destruct (interpretation_prefix (base_coefficient text)
                (ContextDetector.detect text user_context)) as [tail Htail].
    change (interpretation data) with
      (ConsciousnessContextualizer._interpret_coefficient (base_coefficient text)
         (ContextDetector.detect text user_context)).
    rewrite Htail. rewrite <- !OccurrenceFacts.append_assoc.
    rewrite !OccurrenceFacts.append_assoc.
    rewrite <- (OccurrenceFacts.append_assoc "Unity Coefficient: ").
    apply StrFacts.startswith_app.
  - intros Hcl. apply reframing_plain_keeps_base. exact Hcl.
  - intros Hcl Hre. apply reframing_suggestion_sovereignty; assumption.
Qed.

(** X16. [ContentType(value)] inverts [.value]: every member is recovered
    from its value and from itself, a value is accepted only if it is the
    string of a member or a member, no two members share a value, and the
    twelve listed members are all there are. *)
Theorem content_type_round_trip :
  (forall t, ContentType_of_value (PyStr (ContentType_value t)) = Some t) /\
  (forall t, ContentType_of_value (PyEnum t) = Some t) /\
  (forall v t,
     ContentType_of_value v = Some t <-> v = PyStr (ContentType_value t) \/ v = PyEnum t) /\
  (forall t1 t2, ContentType_value t1 = ContentType_value t2 -> t1 = t2) /\
  (forall t, t ∈ ContentType_members).
Proof.
  split; [exact ContentType_of_value_member |]. split; [reflexivity |]. split; [| split].
  - intros v t. split; [apply ContentType_of_value_Some |].
    intros [-> | ->]; [apply ContentType_of_value_member | reflexivity].
  - intros t1 t2 H.
    pose proof (ContentType_of_value_member t1) as H1. rewrite H in H1.
    rewrite ContentType_of_value_member in H1. congruence.
  - intros t. apply list_elem_of_In. destruct t; cbn; tauto.
Qed.

(** X17. Context analysis changes nothing but the message: for any user
    contexts, the report with context analysis has the coefficient, the
    method tag and both hit dicts of the report without it, and building it
    never fails the validation of the coefficient. *)
Theorem context_changes_only_the_message {L : Str.Lower}
    (text : string) (user_context user_context' : option (gmap string PyVal)) :
  exists plain contextual,
    get_unity_report text user_context false = Ok plain /\
    get_unity_report text user_context' true = Ok contextual /\
    coefficient contextual = coefficient plain /\
    analysis_method contextual = analysis_method plain /\
    separation_hits contextual = separation_hits plain /\
    unity_hits contextual = unity_hits plain /\
    conscious_reframing contextual =
      _generate_context_aware_reframing (conscious_reframing plain)
        (contextualize_analysis (coefficient plain) text user_context').
Proof.
  exists (base_report_of text), (contextual_report_of text user_context').
  split; [apply get_unity_report_plain |].
  split; [apply get_unity_report_contextual |].
  cbn [coefficient analysis_method separation_hits unity_hits conscious_reframing
       base_report_of contextual_report_of].
  split; [reflexivity |]. split; [reflexivity |]. split; [reflexivity |].
  split; reflexivity.
Qed.



Module MonotoneFacts.
Import Float.
Local Open Scope Q_scope.

Lemma pow2_Qpower (e : Z) : pow2 e == 2 ^ e.
Proof.
  destruct e as [| p | p].
  - reflexivity.
  - cbn [pow2]. rewrite Zpower_Qpower by lia. reflexivity.
  - cbn [pow2]. change (Z.neg p) with (- Z.pos p)%Z. rewrite Qpower_opp.
    rewrite <- (Zpower_Qpower 2 (Z.pos p)) by lia.
    rewrite <- Pos2Z.inj_pow. reflexivity.
Qed.

Lemma pow2_add (a b : Z) : pow2 (a + b) == pow2 a * pow2 b.
Proof.
  rewrite !pow2_Qpower. apply Qpower_plus. discriminate.
Qed.

Lemma pow2_le (a b : Z) : (a <= b)%Z -> pow2 a <= pow2 b.
Proof.
  intros H. rewrite !pow2_Qpower. apply Qpower_le_compat_l; [exact H | discriminate].
Qed.

Lemma pow2_nonneg_exp (n : Z) : (0 <= n)%Z -> pow2 n = inject_Z (2 ^ n).
Proof.
  intros H. destruct n as [| p | p]; [reflexivity | reflexivity | lia].
Qed.

(** [ilog2] is the binary exponent of a positive rational. *)
Lemma ilog2_spec (q : Q) :
  0 < q -> pow2 (ilog2 q) <= q /\ q < pow2 (ilog2 q + 1).
Proof.
  intros Hpos. destruct q as [n d].
  assert (Hn : (0 < n)%Z) by (unfold Qlt in Hpos; cbn in Hpos; lia).
  unfold ilog2. cbn [Qnum Qden].
  set (a := Z.log2 n). set (b := Z.log2 (Z.pos d)).
  assert (Ha0 : (0 <= a)%Z) by apply Z.log2_nonneg.
  assert (Hb0 : (0 <= b)%Z) by apply Z.log2_nonneg.
  destruct (Z.log2_spec n Hn) as [Hn1 Hn2]. fold a in Hn1, Hn2.
  destruct (Z.log2_spec (Z.pos d) eq_refl) as [Hd1 Hd2]. fold b in Hd1, Hd2.
  assert (HqD : (n # d) * inject_Z (Z.pos d) == inject_Z n).
  { unfold Qeq, Qmult. cbn [Qnum Qden inject_Z]. lia. }
  assert (HD : 0 < inject_Z (Z.pos d)) by reflexivity.
  assert (Hup : n # d < pow2 (a - b + 1)).
  { assert (E : pow2 (a - b + 1) * pow2 b == pow2 (Z.succ a)).
    { rewrite <- pow2_add. replace (a - b + 1 + b)%Z with (Z.succ a) by lia. reflexivity. }
    rewrite (pow2_nonneg_exp b Hb0), (pow2_nonneg_exp (Z.succ a)) in E by lia.
    assert (HB : inject_Z (2 ^ b) <= inject_Z (Z.pos d)) by (rewrite <- Zle_Qle; exact Hd1).
    assert (HN : inject_Z n < inject_Z (2 ^ Z.succ a)) by (rewrite <- Zlt_Qlt; exact Hn2).
    assert (HB0 : 0 < inject_Z (2 ^ b)).
    { rewrite <- (pow2_nonneg_exp b Hb0). apply FloatFacts.pow2_pos. }
    pose proof (FloatFacts.pow2_pos (a - b + 1)) as HP.
    apply Qnot_le_lt. intros Hge.
    set (P := pow2 (a - b + 1)) in *. set (B := inject_Z (2 ^ b)) in *.
    set (D := inject_Z (Z.pos d)) in *. set (N := inject_Z n) in *.
    set (A := inject_Z (2 ^ Z.succ a)) in *. set (q := n # d) in *.
    nra. }
  assert (Hlow : pow2 (a - b - 1) <= n # d).
  { assert (E : pow2 (a - b - 1) * pow2 (Z.succ b) == pow2 a).
    { rewrite <- pow2_add. replace (a - b - 1 + Z.succ b)%Z with a by lia. reflexivity. }
    rewrite (pow2_nonneg_exp a Ha0), (pow2_nonneg_exp (Z.succ b)) in E by lia.
    assert (HB : inject_Z (Z.pos d) <= inject_Z (2 ^ Z.succ b))
      by (rewrite <- Zle_Qle; lia).
    assert (HN : inject_Z (2 ^ a) <= inject_Z n) by (rewrite <- Zle_Qle; exact Hn1).
    pose proof (FloatFacts.pow2_pos (a - b - 1)) as HP.
    apply Qnot_lt_le. intros Hlt.
    set (P := pow2 (a - b - 1)) in *. set (B := inject_Z (2 ^ Z.succ b)) in *.
    set (D := inject_Z (Z.pos d)) in *. set (N := inject_Z n) in *.
    set (A := inject_Z (2 ^ a)) in *. set (q := n # d) in *.
    nra. }
  destruct (Qle_bool (pow2 (a - b)) (n # d)) eqn:E.
  - apply Qle_bool_iff in E. split; [exact E | exact Hup].
  - split; [exact Hlow |].
    replace (a - b - 1 + 1)%Z with (a - b)%Z by lia.
    apply Qnot_le_lt. intros H. apply Qle_bool_iff in H. congruence.
Qed.

Lemma ilog2_mono (x y : Q) : 0 < x -> x <= y -> (ilog2 x <= ilog2 y)%Z.
Proof.
  intros Hx Hxy. assert (Hy : 0 < y) by lra.
  destruct (ilog2_spec x Hx) as [Hx1 _]. destruct (ilog2_spec y Hy) as [_ Hy2].
  apply Z.le_ngt. intros Hgt.
  assert (H : pow2 (ilog2 y + 1) <= pow2 (ilog2 x)) by (apply pow2_le; clear - Hgt; lia).
  set (a := pow2 (ilog2 y + 1)) in *. set (b := pow2 (ilog2 x)) in *.
  clear - Hxy Hx1 Hy2 H. lra.
Qed.

Lemma rne_mono (x y : Q) : x <= y -> (rne x <= rne y)%Z.
Proof.
  intros Hxy. pose proof (Qfloor_resp_le x y Hxy) as Hf.
  destruct (Z.eq_dec (Qfloor x) (Qfloor y)) as [E | E].
  - unfold rne. rewrite <- E.
    destruct (Qcompare_spec (x - inject_Z (Qfloor x)) (1 # 2)) as [Ex | Ex | Ex];
    destruct (Qcompare_spec (y - inject_Z (Qfloor x)) (1 # 2)) as [Ey | Ey | Ey];
    destruct (Z.even (Qfloor x));
    first [ apply Z.le_refl | apply Z.le_succ_diag_r | exfalso; lra ].
  - destruct (FloatFacts.rne_floor x) as [-> | ->], (FloatFacts.rne_floor y) as [-> | ->]; lia.
Qed.

Lemma b64_pos_value (q : Q) :
  b64_pos q ==
  inject_Z (rne (q / pow2 (Z.max (ilog2 q - 52) (-1074)))) *
  pow2 (Z.max (ilog2 q - 52) (-1074)).
Proof. unfold b64_pos. apply Qred_correct. Qed.

Lemma b64_pos_nonneg (q : Q) : 0 < q -> 0 <= b64_pos q.
Proof.
  intros Hq. rewrite b64_pos_value.
  set (e := Z.max (ilog2 q - 52) (-1074)).
  pose proof (FloatFacts.pow2_pos e) as HP.
  assert (Hm : (0 <= rne (q / pow2 e))%Z).
  { apply FloatFacts.rne_ge_Z. change (inject_Z 0) with 0.
    apply Qle_shift_div_l; [exact HP | lra]. }
  rewrite Zle_Qle in Hm. change (inject_Z 0) with 0 in Hm.
  apply Qmult_le_0_compat; lra.
Qed.

(** Rounding to binary64 is monotone. *)
Lemma b64_pos_mono (x y : Q) : 0 < x -> x <= y -> b64_pos x <= b64_pos y.
Proof.
  intros Hx Hxy. assert (Hy : 0 < y) by lra.
  rewrite !b64_pos_value.
  pose proof (ilog2_mono x y Hx Hxy) as Hl.
  destruct (ilog2_spec x Hx) as [_ Hx2]. destruct (ilog2_spec y Hy) as [Hy1 _].
  set (ex := Z.max (ilog2 x - 52) (-1074)) in *.
  set (ey := Z.max (ilog2 y - 52) (-1074)) in *.
  pose proof (FloatFacts.pow2_pos ex) as HPx. pose proof (FloatFacts.pow2_pos ey) as HPy.
  destruct (Z.eq_dec ex ey) as [E | E].
  - rewrite <- E.
    assert (Hm : (rne (x / pow2 ex) <= rne (y / pow2 ex))%Z).
    { apply rne_mono. apply Qmult_le_compat_r; [exact Hxy |].
      apply Qlt_le_weak, Qinv_lt_0_compat, HPx. }
    rewrite Zle_Qle in Hm. apply Qmult_le_compat_r; lra.
  - assert (Hlt : (ex + 1 <= ey)%Z) by (unfold ex, ey in *; lia).
    assert (Hey : ey = (ilog2 y - 52)%Z) by (unfold ex, ey in *; lia).
    assert (Hex : (ilog2 x + 1 <= ex + 53)%Z) by (unfold ex; lia).
    (* the float of x is at most 2^(ex+53) *)
    assert (Hmx : (rne (x / pow2 ex) <= 2 ^ 53)%Z).
    { apply FloatFacts.rne_le_Z. apply Qle_shift_div_r; [exact HPx |].
      rewrite <- (pow2_nonneg_exp 53) by lia. rewrite <- pow2_add.
      assert (H : pow2 (ilog2 x + 1) <= pow2 (53 + ex)) by (apply pow2_le; lia).
      lra. }
    (* the float of y is at least 2^(ey+52) *)
    assert (Hmy : (2 ^ 52 <= rne (y / pow2 ey))%Z).
    { apply FloatFacts.rne_ge_Z. apply Qle_shift_div_l; [exact HPy |].
      rewrite <- (pow2_nonneg_exp 52) by lia. rewrite <- pow2_add.
      replace (52 + ey)%Z with (ilog2 y) by lia. exact Hy1. }
    rewrite Zle_Qle in Hmx, Hmy.
    rewrite <- (pow2_nonneg_exp 53) in Hmx by lia.
    rewrite <- (pow2_nonneg_exp 52) in Hmy by lia.
    assert (Hmid : pow2 53 * pow2 ex <= pow2 52 * pow2 ey).
    { rewrite <- !pow2_add. apply pow2_le. lia. }
    assert (H1 : inject_Z (rne (x / pow2 ex)) * pow2 ex <= pow2 53 * pow2 ex)
      by (apply Qmult_le_compat_r; lra).
    assert (H2 : pow2 52 * pow2 ey <= inject_Z (rne (y / pow2 ey)) * pow2 ey)
      by (apply Qmult_le_compat_r; lra).
    lra.
Qed.

Lemma b64_mono (x y : Q) : 0 <= x -> x <= y -> b64 x <= b64 y.
Proof.
  intros Hx Hxy. unfold b64.
  destruct (Qcompare_spec x 0) as [Ex | Ex | Ex];
    destruct (Qcompare_spec y 0) as [Ey | Ey | Ey]; try lra.
  - apply b64_pos_nonneg. exact Ey.
  - now apply b64_pos_mono.
Qed.

Lemma round_mono (x y : Q) (ndigits : N) : 0 <= x -> x <= y -> round x ndigits <= round y ndigits.
Proof.
  intros Hx Hxy. unfold round.
  set (p := (10 ^ Z.of_N ndigits)%Z).
  assert (Hp : (0 < p)%Z) by (apply Z.pow_pos_nonneg; lia).
  assert (Hpq : 0 < inject_Z p) by (rewrite Zlt_Qlt in Hp; exact Hp).
  assert (Hk : (rne (x * inject_Z p) <= rne (y * inject_Z p))%Z).
  { apply rne_mono. apply Qmult_le_compat_r; lra. }
  assert (Hk0 : (0 <= rne (x * inject_Z p))%Z).
  { apply FloatFacts.rne_ge_Z. change (inject_Z 0) with 0. apply Qmult_le_0_compat; lra. }
  rewrite Zle_Qle in Hk, Hk0. change (inject_Z 0) with 0 in Hk0.
  apply b64_mono.
  - apply Qle_shift_div_l; lra.
  - apply Qmult_le_compat_r; [exact Hk |]. apply Qlt_le_weak, Qinv_lt_0_compat, Hpq.
Qed.

Lemma truediv_mono (u t u' t' : N) :
  (0 < t)%N -> (0 < t')%N -> (u * t' <= u' * t)%N ->
  truediv u t <= truediv u' t'.
Proof.
  intros Ht Ht' H. unfold truediv.
  assert (HT : 0 < inject_Z (Z.of_N t)) by (unfold Qlt; simpl; lia).
  assert (HT' : 0 < inject_Z (Z.of_N t')) by (unfold Qlt; simpl; lia).
  assert (HU : 0 <= inject_Z (Z.of_N u)) by (unfold Qle; simpl; lia).
  apply b64_mono.
  - apply Qle_shift_div_l; lra.
  - apply Qle_shift_div_l; [exact HT' |].
    assert (E : inject_Z (Z.of_N u) / inject_Z (Z.of_N t) * inject_Z (Z.of_N t') ==
                inject_Z (Z.of_N u) * inject_Z (Z.of_N t') / inject_Z (Z.of_N t))
      by (field; lra).
    rewrite E. apply Qle_shift_div_r; [exact HT |].
    rewrite <- !inject_Z_mult, <- Zle_Qle. lia.
Qed.

End MonotoneFacts.

(** X18. The reported coefficient is monotone in the ratio of the totals:
    if unity_count / total of one pair of hit dicts is at most that of
    another (both totals positive), its reported coefficient is at most the
    other's.  In particular more unity hits never lower it and more
    separation hits never raise it. *)
Theorem coefficient_monotone (sep_hits uni_hits sep_hits' uni_hits' : gmap string N) :
  let u := sum_values uni_hits in
  let t := (sum_values sep_hits + u)%N in
  let u' := sum_values uni_hits' in
  let t' := (sum_values sep_hits' + u')%N in
  (0 < t)%N -> (0 < t')%N -> (u * t' <= u' * t)%N ->
  exists report report',
    report_of_hits sep_hits uni_hits = Ok report /\
    report_of_hits sep_hits' uni_hits' = Ok report' /\
    (coefficient report <= coefficient report')%Q.
Proof.
  intros u t u' t' Ht Ht' H.
  eexists. eexists. split; [apply report_of_hits_eq |]. split; [apply report_of_hits_eq |].
  cbn [coefficient].
  pose proof (raw_unity_coefficient_unit sep_hits uni_hits) as [H0 _].
  apply MonotoneFacts.round_mono; [exact H0 |].
  unfold raw_unity_coefficient. fold u t u' t'.
  destruct (N.eqb_spec t 0) as [E | _]; [lia |].
  destruct (N.eqb_spec t' 0) as [E | _]; [lia |].
  now apply MonotoneFacts.truediv_mono.
Qed.

(** An instance of X18: one more unity hit. *)
Lemma coefficient_monotone_witness :
  exists report report',
    report_of_hits {[ "fear" := 2%N ]} {[ "love" := 1%N ]} = Ok report /\
    report_of_hits {[ "fear" := 2%N ]} {[ "love" := 2%N ]} = Ok report' /\
    (coefficient report <= coefficient report')%Q.
Proof.
  apply (coefficient_monotone {[ "fear" := 2%N ]} {[ "love" := 1%N ]}
           {[ "fear" := 2%N ]} {[ "love" := 2%N ]});
    rewrite !sum_values_singleton; lia.
Defined.
